(** * Searchfox function search: a shallow embedding of
      [bugbug/code_search/searchfox_api.py] and its specification.

    The Python module resolves a symbol (by name, or by file and line) to the
    source text of the enclosing function.  It talks to three remote
    services (the search index, the rendered file view and the raw file
    store); here they are fields of an environment record, every request is
    recorded in a trace, and a raised exception is a value of [result]. *)

From stdpp Require Import gmap strings list.
From Stdlib Require Import ZArith Ascii.

Local Open Scope Z_scope.
Set Warnings "-register-all".

(** ** Python strings

    [str] values are modelled as [string]; the operations below are the
    methods and operators of [str] that the module uses. *)

Module PyStr.

(** [s.startswith(p)] *)
Fixpoint startswith (s p : string) : bool :=
  match p, s with
  | EmptyString, _ => true
  | String a p', String b s' =>
      if decide (a = b) then startswith s' p' else false
  | String _ _, EmptyString => false
  end.

(** [s[n:]] for a non-negative [n] *)
Fixpoint drop (n : nat) (s : string) : string :=
  match n, s with
  | O, _ => s
  | S n', String _ s' => drop n' s'
  | S _, EmptyString => EmptyString
  end.

(** [s[:n]] for a non-negative [n] *)
Fixpoint take (n : nat) (s : string) : string :=
  match n, s with
  | O, _ => EmptyString
  | S n', String c s' => String c (take n' s')
  | S _, EmptyString => EmptyString
  end.

(** [s.endswith(p)] *)
Definition endswith (s p : string) : bool :=
  if decide (String.length p ≤ String.length s)%nat
  then bool_decide (drop (String.length s - String.length p) s = p)
  else false.

(** [s.find(sub)], with [None] for Python's [-1] *)
Fixpoint find (sub s : string) : option nat :=
  if startswith s sub then Some O
  else match s with
       | EmptyString => None
       | String _ s' => S <$> find sub s'
       end.

(** [sub in s] *)
Definition contains (s sub : string) : bool :=
  bool_decide (is_Some (find sub s)).

(** [s.split(sep, 1)] for a non-empty separator *)
Definition split1 (s sep : string) : list string :=
  match find sep s with
  | None => [s]
  | Some n => [take n s; drop (n + String.length sep) s]
  end.

(** [s.replace(old, new)] for a non-empty [old]: the occurrences are
    replaced from left to right and do not overlap.  [skip] counts the
    characters of the occurrence being replaced that are still to be
    dropped. *)
Fixpoint replace_from (old new : string) (skip : nat) (s : string) : string :=
  match s with
  | EmptyString => EmptyString
  | String c s' =>
      match skip with
      | S k => replace_from old new k s'
      | O =>
          if startswith s old
          then new +:+ replace_from old new (String.length old - 1) s'
          else String c (replace_from old new O s')
      end
  end.

Definition replace (s old new : string) : string := replace_from old new 0 s.

(** [sep.join(parts)] *)
Fixpoint join (sep : string) (parts : list string) : string :=
  match parts with
  | [] => EmptyString
  | [p] => p
  | p :: rest => p +:+ sep +:+ join sep rest
  end.

(** [x or default] on strings: the empty string is falsy. *)
Definition or_else (x default : string) : string :=
  if decide (x = EmptyString) then default else x.

Definition LF : string := String (ascii_of_nat 10) EmptyString.

End PyStr.

(** ** Exceptions and results *)

Inductive exn : Type :=
| HTTPError (status : Z)
| ConnectionError
| AssertionError
| StopIteration
| ValueError
| TypeError
| IndexError
| KeyError
| JSONDecodeError
| ReError
| OtherError (what : string).

Inductive result (A : Type) : Type :=
| Ok (a : A)
| Raise (e : exn).
Arguments Ok {A} a.
Arguments Raise {A} e.

#[global] Instance result_ret : MRet result := @Ok.
#[global] Instance result_bind : MBind result := fun A B f r =>
  match r with
  | Ok a => f a
  | Raise e => Raise e
  end.
#[global] Instance result_fmap : FMap result := fun A B f r =>
  match r with
  | Ok a => Ok (f a)
  | Raise e => Raise e
  end.

(** A request sent to a remote service. *)
Inductive request : Type :=
| HttpGet (url : string)
| GetFile (revision path : string).

(** Computations that talk to the remote services: the requests made so far,
    in order, and the value returned or the exception raised. *)
Definition M (A : Type) : Type := (list request * result A)%type.

#[global] Instance M_ret : MRet M := fun A a => ([], Ok a).
#[global] Instance M_bind : MBind M := fun A B f m =>
  match m with
  | (t, Ok a) => let '(t', r) := f a in (t ++ t', r)
  | (t, Raise e) => (t, Raise e)
  end.
#[global] Instance M_fmap : FMap M := fun A B f m =>
  (m.1, f <$> m.2).

(** A pure, possibly raising step inside [M]. *)
Definition lift {A} (r : result A) : M A := ([], r).

(** One remote call: the request is recorded, then its outcome. *)
Definition call {A} (q : request) (r : result A) : M A := ([q], r).

(** ** The rendered file view

    An element of the DOM tree ([lxml.html.HtmlElement]): its attributes and
    its children, in document order. *)

Inductive Element : Type :=
| Elem (attrib : gmap string string) (children : list Element).

Definition attrib (e : Element) : gmap string string :=
  match e with Elem a _ => a end.

Definition children (e : Element) : list Element :=
  match e with Elem _ cs => cs end.

(** [element.iterdescendants()]: the descendants in document order, the
    element itself excluded. *)
Fixpoint iterself (e : Element) : list Element :=
  match e with
  | Elem _ cs =>
      e :: (fix over (l : list Element) : list Element :=
              match l with
              | [] => []
              | c :: l' => iterself c ++ over l'
              end) cs
  end.

Definition iterdescendants (e : Element) : list Element :=
  children e ≫= iterself.

(** [html.find("#file")]: the elements of the document whose [id] is [file]. *)
Definition find_by_id (id : string) (root : Element) : list Element :=
  filter (fun e => attrib e !! "id" = Some id) (iterself root).

(** An HTTP response, with its body as text and as a parsed document. *)
Record Response : Type := {
  status_code : Z;
  text : string;
  html : Element
}.

(** [r.raise_for_status()] *)
Definition raise_for_status (r : Response) : result unit :=
  if decide (400 ≤ status_code r < 600) then Raise (HTTPError (status_code r))
  else Ok tt.

(** ** The index response

    One hit of the index ([value] in the source): [value["path"]] and
    [value["lines"]], a list of records with a line number and the matched
    line. *)

Record HitLine : Type := { lno : Z; line : string }.

Record Hit : Type := { hit_path : string; hit_lines : list HitLine }.

#[global] Instance HitLine_eq_dec : EqDecision HitLine.
Proof. solve_decision. Defined.

#[global] Instance Hit_eq_dec : EqDecision Hit.
Proof. solve_decision. Defined.

(** The decoded [results] object: category ([normal], [thirdparty], [test])
    to bucket key to hits. *)
Abbreviation Results := (gmap string (gmap string (list Hit))).

(** A compiled regular expression, as its [search(line)] followed by
    [.start()]: the position of the first match, if any. *)
Abbreviation Pattern := (string → option nat).

(** ** The environment

    What the module imports from outside this file: the HTTP session, the
    raw file accessor given to the constructor, [json.loads], [re.compile],
    [int], the line iteration of a text stream, and the extension table of
    [bugbug.repository]. *)

Record Env : Type := {
  http_get : string → result Response;
  get_file : string → string → result string;
  json_loads : string → result Results;
  re_compile : string → result Pattern;
  py_int : string → option Z;
  read_lines : string → list string;
  SOURCE_CODE_TYPES_TO_EXT : string → list string
}.

(** A scope found in a file: the dict built by [get_functions]. *)
Record FunctionDict : Type := {
  name : string;
  path : string;
  start : Z;
  end_ : Z
}.

#[global] Instance FunctionDict_eq_dec : EqDecision FunctionDict.
Proof. solve_decision. Defined.

(** The resolved result, [Function(name, start, file, source)]. *)
Record Function : Type := {
  fn_name : string;
  fn_start : Z;
  fn_file : string;
  fn_source : string
}.

Inductive position : Type := start_pos | end_pos.

(** [for x in l: acc = f(acc, x)], stopping at the first exception. *)
Fixpoint for_each {A B} (f : B → A → result B) (acc : B) (l : list A) : result B :=
  match l with
  | [] => Ok acc
  | x :: l' => acc' ← f acc x; for_each f acc' l'
  end.

(** The lines of [lines], numbered from [n]. *)
Fixpoint number_from (n : Z) (lines : list string) : list (Z * string) :=
  match lines with
  | [] => []
  | l :: rest => (n, l) :: number_from (n + 1) rest
  end.

(** The lines whose 1-based number lies in the half-open range
    from [first] to [stop]. *)
Definition lines_in_range (first stop : Z) (lines : list string) : list string :=
  snd <$> filter (fun nl => first ≤ nl.1 < stop) (number_from 1 lines).

(** The lines whose 1-based number lies between [first] and [last], both
    included: the range the specification promises for a source text. *)
Definition lines_inclusive (first last : Z) (lines : list string) : list string :=
  snd <$> filter (fun nl => first ≤ nl.1 ≤ last) (number_from 1 lines).

Section Searchfox.
Context (E : Env).

(** *** Scope boundaries: [get_line_number] *)

(** [int(element.get("id")[len("line-") :])] *)
Definition line_id (element : Element) : result Z :=
  match attrib element !! "id" with
  | None => Raise TypeError
  | Some id =>
      match py_int E (PyStr.drop 5 id) with
      | Some n => Ok n
      | None => Raise ValueError
      end
  end.

(** [get_line_number] once its element is picked: a nested scope marker
    defers to its own children, a plain line marker carries the number. *)
Fixpoint line_number_of (position : position) (element : Element) : result Z :=
  match element with
  | Elem a cs =>
      if decide (is_Some (a !! "data-nesting-sym")) then
        match position with
        | start_pos =>
            match cs with
            | [] => Raise StopIteration
            | c :: _ => line_number_of position c
            end
        | end_pos =>
            (fix last_of (l : list Element) : result Z :=
               match l with
               | [] => Raise ValueError
               | [c] => line_number_of position c
               | _ :: l' => last_of l'
               end) cs
        end
      else line_id element
  end.

Definition get_line_number (elements : list Element) (position : position)
  : result Z :=
  match position with
  | start_pos =>
      match elements with
      | [] => Raise StopIteration
      | element :: _ => line_number_of position element
      end
  | end_pos =>
      match last elements with
      | None => Raise ValueError
      | Some element => line_number_of position element
      end
  end.

(** *** Scope listing: [get_functions] *)

Definition source_url (path : string) : string :=
  "https://searchfox.org/mozilla-central/source/" +:+ path.

(** The test of the first loop of [get_functions]. *)
Definition is_sym_wrap (symbol_name : option string) (element : Element) : bool :=
  match attrib element !! "data-nesting-sym" with
  | None => false
  | Some sym =>
      match symbol_name with
      | None => true
      | Some symbol_name => PyStr.contains sym symbol_name
      end
  end.

Definition sym_wraps_of (file : Element) (symbol_name : option string)
  : list Element :=
  filter (fun element => is_sym_wrap symbol_name element) (iterdescendants file).

(** The dict built for one scope marker in the second loop. *)
Definition function_dict (path : string) (sym_wrap : Element)
  : result FunctionDict :=
  match attrib sym_wrap !! "data-nesting-sym" with
  | None => Raise KeyError
  | Some sym =>
      s ← get_line_number (children sym_wrap) start_pos;
      e ← get_line_number (children sym_wrap) end_pos;
      mret {| name := PyStr.drop 1 sym; path := path; start := s; end_ := e |}
  end.

(** What [get_functions] makes of the response of the file view. *)
Definition scopes_of_response (path : string) (symbol_name : option string)
    (r : Response) : result (list FunctionDict) :=
  if decide (status_code r = 404) then Ok []
  else
    raise_for_status r;;
    file ← match find_by_id "file" (html r) with
           | [file] => Ok file
           | _ => Raise AssertionError
           end;
    mapM (function_dict path) (sym_wraps_of file symbol_name).

Definition get_functions (commit_hash path : string)
    (symbol_name : option string) : M (list FunctionDict) :=
  r ← call (HttpGet (source_url path)) (http_get E (source_url path));
  lift (scopes_of_response path symbol_name r).

(** *** Enclosing scope: [find_function_for_line] *)

Definition select_step (line : Z) (selected_function : option FunctionDict)
    (function : FunctionDict) : option FunctionDict :=
  if decide (start function ≤ line ≤ end_ function) then
    match selected_function with
    | None => Some function
    | Some selected =>
        if decide (start selected < start function) then Some function
        else selected_function
    end
  else selected_function.

Definition select_function (line : Z) (functions : list FunctionDict)
  : option FunctionDict :=
  foldl (select_step line) None functions.

Definition find_function_for_line (commit_hash path : string) (line : Z)
  : M (option FunctionDict) :=
  functions ← get_functions commit_hash path None;
  mret (select_function line functions).

(** *** Definition classifier: [search] *)

Definition search_url (symbol_name : string) : string :=
  "https://searchfox.org/mozilla-central/search?q=id:" +:+ symbol_name.

(** The text between [var results = ] and the next semicolon at a line end,
    with the two escape sequences JSON rejects repaired. *)
Definition results_text (text : string) : result string :=
  match PyStr.split1 text "var results = " with
  | [_; results] =>
      match PyStr.split1 results (";" +:+ PyStr.LF) with
      | results :: _ =>
          let results := PyStr.replace results "<\s" "<\\s" in
          let results := PyStr.replace results "<\!" "<\\!" in
          Ok results
      | [] => Raise IndexError
      end
  | _ => Raise IndexError
  end.

(** [any(path.endswith(ext) for ext in exts)] *)
Definition has_ext (path : string) (exts : list string) : bool :=
  existsb (PyStr.endswith path) exts.

(** [needle in line and symbol_word_position is not None
     and symbol_word_position < line.index(needle)] *)
Definition word_before (symbol_word_position : option nat)
    (line needle : string) : bool :=
  PyStr.contains line needle &&
  match symbol_word_position, PyStr.find needle line with
  | Some p, Some i => bool_decide (p < i)%nat
  | _, _ => false
  end.

(** The chain of language rules: does [line] look like a definition of
    [symbol_name] in a file named [path]? *)
Definition looks_like_definition (symbol_name : string)
    (symbol_word_position : option nat) (path line : string) : bool :=
  if has_ext path (SOURCE_CODE_TYPES_TO_EXT E "Rust") then
    PyStr.contains line "fn {symbol_name}"
    || word_before symbol_word_position line "|"
  else if has_ext path (SOURCE_CODE_TYPES_TO_EXT E "Javascript") then
    PyStr.contains line (symbol_name +:+ "(")
    || PyStr.contains line ("function " +:+ symbol_name)
    || word_before symbol_word_position line "function"
    || word_before symbol_word_position line "=>"
  else if has_ext path (SOURCE_CODE_TYPES_TO_EXT E "C/C++"
                        ++ SOURCE_CODE_TYPES_TO_EXT E "Objective-C/C++") then
    PyStr.contains line (symbol_name +:+ "(")
    || word_before symbol_word_position line "->"
  else if has_ext path (SOURCE_CODE_TYPES_TO_EXT E "Python") then
    PyStr.contains line ("def " +:+ symbol_name +:+ "(")
    || word_before symbol_word_position line "lambda"
  else true.

(** The verdict on one line of one hit: the substring test, then the rule. *)
Definition accepts_line (symbol_name : string) (symbol_word_re : Pattern)
    (path line : string) : bool :=
  if negb (PyStr.contains line symbol_name) then false
  else looks_like_definition symbol_name (symbol_word_re line) path line.

(** [value["lines"][0]["line"]] *)
Definition first_line (value : Hit) : result string :=
  match hit_lines value with
  | [] => Raise IndexError
  | l :: _ => Ok (line l)
  end.

(** The body of the innermost loop. *)
Definition scan_value (symbol_name : string) (symbol_word_re : Pattern)
    (definitions : list Hit) (value : Hit) : result (list Hit) :=
  line ← first_line value;
  if accepts_line symbol_name symbol_word_re (hit_path value) line
  then Ok (definitions ++ [value])
  else Ok definitions.

(** [sub_type.startswith("Definitions")
     and sub_type.endswith(f"{symbol_name})")] *)
Definition bucket_matches (symbol_name sub_type : string) : bool :=
  PyStr.startswith sub_type "Definitions"
  && PyStr.endswith sub_type (symbol_name +:+ ")").

Definition scan_bucket (symbol_name : string) (symbol_word_re : Pattern)
    (definitions : list Hit) (bucket : string * list Hit) : result (list Hit) :=
  if bucket_matches symbol_name bucket.1
  then for_each (scan_value symbol_name symbol_word_re) definitions bucket.2
  else Ok definitions.

Definition scan_type (symbol_name : string) (symbol_word_re : Pattern)
    (results : Results) (definitions : list Hit) (type_ : string)
  : result (list Hit) :=
  match results !! type_ with
  | None => Ok definitions
  | Some buckets =>
      for_each (scan_bucket symbol_name symbol_word_re) definitions
        (map_to_list buckets)
  end.

Definition categories : list string := ["normal"; "thirdparty"; "test"].

(** The accepted hits: [definitions] after the three nested loops. *)
Definition find_definitions (symbol_name : string) (symbol_word_re : Pattern)
    (results : Results) : result (list Hit) :=
  for_each (scan_type symbol_name symbol_word_re results) [] categories.

(** [set(definition["path"] for definition in definitions)] *)
Definition definition_paths (definitions : list Hit) : gset string :=
  list_to_set (hit_path <$> definitions).

(** The classifier of the specification: from the symbol and the decoded
    index response to the set of paths. *)
Definition classify (symbol_name : string) (results : Results)
  : result (gset string) :=
  symbol_word_re ← re_compile E ("\b" +:+ symbol_name +:+ "\b");
  definitions ← find_definitions symbol_name symbol_word_re results;
  mret (definition_paths definitions).

Definition search (commit_hash symbol_name : string) : M (list FunctionDict) :=
  r ← call (HttpGet (search_url symbol_name))
           (http_get E (search_url symbol_name));
  lift (raise_for_status r);;
  results ← lift (results_text (text r));
  results ← lift (json_loads E results);
  paths ← lift (classify symbol_name results);
  functions ← mapM (fun path => get_functions commit_hash path (Some symbol_name))
                   (elements paths);
  mret (concat functions).

(** The hits the innermost loop visits: those of the buckets whose key
    passes [bucket_matches], in the three categories. *)
Definition bucket_hits (symbol_name : string) (bucket : string * list Hit)
  : list Hit :=
  if bucket_matches symbol_name bucket.1 then bucket.2 else [].

Definition category_hits (symbol_name : string) (results : Results)
    (type_ : string) : list Hit :=
  match results !! type_ with
  | None => []
  | Some buckets => map_to_list buckets ≫= bucket_hits symbol_name
  end.

Definition candidates (symbol_name : string) (results : Results) : list Hit :=
  categories ≫= category_hits symbol_name results.

(** *** Source extraction and the two public operations *)

(** Modelled from the spec: [searchfox_data.extract_source] is not part of
    this file.  It reads the file once through [read_mc_path] and returns
    the lines whose 1-based numbers fall in the half-open range from [first]
    to [stop]. *)
Definition extract_source (path : string) (first stop : Z)
    (read_mc_path : string → M string) : M (list string) :=
  stream ← read_mc_path path;
  mret (lines_in_range first stop (read_lines E stream)).

(** The end bound handed to [extract_source]. *)
Definition end_bound (definition : FunctionDict) : Z :=
  if decide (end_ definition ≠ start definition) then end_ definition + 1
  else end_ definition.

Definition read_file (commit_hash path : string) : M string :=
  call (GetFile (PyStr.or_else commit_hash "tip") path)
       (get_file E (PyStr.or_else commit_hash "tip") path).

Definition definition_to_result (commit_hash : string)
    (definition : FunctionDict) : M Function :=
  source ← extract_source (path definition) (start definition)
             (end_bound definition) (read_file commit_hash);
  mret {| fn_name := name definition;
          fn_start := start definition;
          fn_file := path definition;
          fn_source := PyStr.join PyStr.LF source |}.

Definition definitions_to_results (commit_hash : string)
    (definitions : list FunctionDict) : M (list Function) :=
  mapM (definition_to_result commit_hash) definitions.

Definition get_function_by_line (commit_hash path : string) (line : Z)
  : M (list Function) :=
  definition ← find_function_for_line (PyStr.or_else commit_hash "tip") path line;
  match definition with
  | Some definition => definitions_to_results commit_hash [definition]
  | None => mret []
  end.

Definition get_function_by_name (commit_hash path function_name : string)
  : M (list Function) :=
  definitions ← search (PyStr.or_else commit_hash "tip") function_name;
  definitions_to_results commit_hash definitions.

End Searchfox.

(** ** The enclosing scope, as the specification words it *)

Definition contains_line (f : FunctionDict) (line : Z) : Prop :=
  start f ≤ line ≤ end_ f.

(** [selected] is the scope of [functions] that contains [line] and has the
    largest start, the first of them in the list when several tie; or there
    is none, and then no scope contains [line]. *)
Definition innermost_first (line : Z) (functions : list FunctionDict)
    (selected : option FunctionDict) : Prop :=
  match selected with
  | None => ∀ f, f ∈ functions → ¬ contains_line f line
  | Some f =>
      ∃ before after,
        functions = before ++ f :: after
        ∧ contains_line f line
        ∧ (∀ g, g ∈ before → contains_line g line → start g < start f)
        ∧ (∀ g, g ∈ after → contains_line g line → start g ≤ start f)
  end.

(** ** A concrete environment

    Stand-ins for the imported functions, good for the plain inputs of the
    examples below: symbols that are identifiers, decimal line numbers,
    files whose lines end in a line feed. *)

Module Sample.

Definition is_word (c : ascii) : bool :=
  let n := nat_of_ascii c in
  ((48 <=? n) && (n <=? 57) || (65 <=? n) && (n <=? 90)
   || (97 <=? n) && (n <=? 122) || (n =? 95))%nat.

Definition first_is_word (s : string) : bool :=
  match s with
  | String c _ => is_word c
  | EmptyString => false
  end.

Fixpoint last_is_word (prev : bool) (s : string) : bool :=
  match s with
  | EmptyString => prev
  | String c s' => last_is_word (is_word c) s'
  end.

(** The first position where [sym] stands between two word boundaries;
    [prev] tells whether the character before [s] is a word character. *)
Fixpoint word_search_from (sym : string) (prev : bool) (s : string)
  : option nat :=
  if PyStr.startswith s sym
     && xorb prev (first_is_word s)
     && xorb (last_is_word prev sym)
             (first_is_word (PyStr.drop (String.length sym) s))
  then Some O
  else match s with
       | EmptyString => None
       | String c s' => S <$> word_search_from sym (is_word c) s'
       end.

(** [re.compile(pattern).search] for a pattern made of a literal symbol
    between two [\b]. *)
Definition word_re (pattern : string) : result Pattern :=
  let sym := PyStr.take (String.length pattern - 4) (PyStr.drop 2 pattern) in
  Ok (word_search_from sym false).

Fixpoint digits (acc : Z) (s : string) : option Z :=
  match s with
  | EmptyString => Some acc
  | String c s' => d ← Ascii.is_nat c; digits (10 * acc + Z.of_nat d) s'
  end.

(** [int] on a decimal numeral. *)
Definition decimal (s : string) : option Z :=
  match s with
  | EmptyString => None
  | String _ _ => digits 0 s
  end.

(** The lines of a text, without their line feeds. *)
Fixpoint read_lines_from (cur s : string) : list string :=
  match s with
  | EmptyString => if decide (cur = EmptyString) then [] else [cur]
  | String c s' =>
      if decide (c = ascii_of_nat 10) then cur :: read_lines_from EmptyString s'
      else read_lines_from (cur +:+ String c EmptyString) s'
  end.

Definition lines_of (s : string) : list string :=
  read_lines_from EmptyString s.

(** Modelled from the spec: the table [SOURCE_CODE_TYPES_TO_EXT] of
    [bugbug.repository] is not part of this file; the specification maps
    extensions to five language families, given here their usual
    extensions. *)
Definition extensions (language : string) : list string :=
  if decide (language = "Rust") then [".rs"]
  else if decide (language = "Javascript")
       then [".js"; ".jsm"; ".sjs"; ".mjs"; ".jsx"]
  else if decide (language = "C/C++")
       then [".c"; ".cpp"; ".cc"; ".cxx"; ".h"; ".hh"; ".hpp"; ".hxx"]
  else if decide (language = "Objective-C/C++") then [".mm"; ".m"]
  else if decide (language = "Python") then [".py"]
  else [].

(** An environment over given remote services and a given decoded index
    response. *)
Definition env (pages : string → result Response)
    (files : string → string → result string) (index : Results) : Env :=
  {| http_get := pages;
     get_file := files;
     json_loads := fun _ => Ok index;
     re_compile := word_re;
     py_int := decimal;
     read_lines := lines_of;
     SOURCE_CODE_TYPES_TO_EXT := extensions |}.

Definition no_pages (url : string) : result Response := Raise ConnectionError.

Definition no_files (revision path : string) : result string :=
  Raise (HTTPError 404).

(** A plain line marker and a named scope marker of the file view. *)
Definition line_marker (n : string) : Element :=
  Elem {[ "id" := "line-" +:+ n ]} [].

Definition scope_marker (sym : string) (body : list Element) : Element :=
  Elem {[ "data-nesting-sym" := sym ]} body.

Definition file_view (body : list Element) : Response :=
  {| status_code := 200; text := "";
     html := Elem ∅ [Elem {[ "id" := "file" ]} body] |}.

(** The nested scopes of the specification's example: [A] spans lines 1
    to 100 and contains [B], which spans lines 10 to 20. *)
Definition nested_view : Response :=
  file_view
    [scope_marker "#A"
       [line_marker "1";
        scope_marker "#B" [line_marker "10"; line_marker "20"];
        line_marker "100"]].

Definition nested_pages (url : string) : result Response :=
  if decide (url = "https://searchfox.org/mozilla-central/source/a.js")
  then Ok nested_view
  else Ok {| status_code := 404; text := ""; html := Elem ∅ [] |}.

Definition scope_A : FunctionDict :=
  {| name := "A"; path := "a.js"; start := 1; end_ := 100 |}.

Definition scope_B : FunctionDict :=
  {| name := "B"; path := "a.js"; start := 10; end_ := 20 |}.

(** A scope that starts and ends on line 2 of [one.js], and that file. *)
Definition single_line_view : Response :=
  file_view
    [line_marker "1"; scope_marker "#f" [line_marker "2"]; line_marker "3"].

Definition single_line_pages (url : string) : result Response :=
  if decide (url = "https://searchfox.org/mozilla-central/source/one.js")
  then Ok single_line_view
  else Ok {| status_code := 404; text := ""; html := Elem ∅ [] |}.

Definition one_js : string :=
  "// header" +:+ PyStr.LF +:+ "var f = x => x + 1;" +:+ PyStr.LF
  +:+ "// footer" +:+ PyStr.LF.

Definition one_js_files (revision path : string) : result string :=
  if decide (path = "one.js") then Ok one_js else Raise (HTTPError 404).




(** An index response with one Rust definition of [foo]. *)
Definition rust_hit : Hit :=
  {| hit_path := "src/lib.rs";
     hit_lines := [{| lno := 12; line := "pub fn foo(x: u32) -> u32 {" |}] |}.

Definition rust_index : Results :=
  {[ "normal" := {[ "Definitions (foo)" := [rust_hit] ]} ]}.



(** An index response for [foo] with hits in two files: a definition and a
    call in [a.c], a line without the symbol and a mere use in [b.py]. *)
Definition c_definition : Hit :=
  {| hit_path := "a.c";
     hit_lines := [{| lno := 4; line := "int foo(int x) { return x; }" |}] |}.

Definition c_call : Hit :=
  {| hit_path := "a.c";
     hit_lines := [{| lno := 9; line := "  y = foo(3);" |}] |}.

Definition py_other : Hit :=
  {| hit_path := "b.py";
     hit_lines := [{| lno := 2; line := "def bar(x):" |}] |}.

Definition py_use : Hit :=
  {| hit_path := "b.py";
     hit_lines := [{| lno := 5; line := "z = foo + 1" |}] |}.

Definition mixed_index : Results :=
  {[ "normal" := {[ "Definitions (foo)" := [c_definition; c_call; py_other] ]};
     "test" := {[ "Definitions (foo)" := [py_use] ]} ]}.

(** A file of thirty lines, and a scope from its line 10 to its line 20. *)
Fixpoint numbered (n : nat) : string :=
  match n with
  | O => EmptyString
  | S n' => numbered n' +:+ "x = x + 1;" +:+ PyStr.LF
  end.

Definition long_js : string := numbered 30.

Definition long_js_files (revision path : string) : result string :=
  if decide (path = "long.js") then Ok long_js
  else if decide (path = "one.js") then Ok one_js
  else Raise (HTTPError 404).

Definition scope_10_20 : FunctionDict :=
  {| name := "g"; path := "long.js"; start := 10; end_ := 20 |}.

(** A whole exchange for the symbol [foo]: the page of the index, whose
    script holds the response [mixed_index], the file view of [a.c] with the
    scopes of [foo] and [bar], and the raw file. *)
Definition a_c_view : Response :=
  file_view
    [line_marker "1";
     scope_marker "_foo" [line_marker "2"; line_marker "3"; line_marker "4"];
     line_marker "5";
     scope_marker "_bar" [line_marker "6"; line_marker "7"]].

Definition a_c : string :=
  "#include <x.h>" +:+ PyStr.LF +:+ "int foo(int x)" +:+ PyStr.LF
  +:+ "{ return x; }" +:+ PyStr.LF +:+ "/* end of foo */" +:+ PyStr.LF
  +:+ PyStr.LF +:+ "int bar(void)" +:+ PyStr.LF +:+ "{ return foo(3); }"
  +:+ PyStr.LF.

Definition foo_pages (url : string) : result Response :=
  if decide (url = "https://searchfox.org/mozilla-central/search?q=id:foo")
  then Ok {| status_code := 200;
             text := "<script>var results = MIXED;" +:+ PyStr.LF +:+ "</script>";
             html := Elem ∅ [] |}
  else if decide (url = "https://searchfox.org/mozilla-central/source/a.c")
  then Ok a_c_view
  else Ok {| status_code := 404; text := ""; html := Elem ∅ [] |}.

Definition foo_files (revision path : string) : result string :=
  if decide (path = "a.c") then Ok a_c else Raise (HTTPError 404).

Definition foo_env : Env :=
  {| http_get := foo_pages;
     get_file := foo_files;
     json_loads := fun s =>
       if decide (s = "MIXED") then Ok mixed_index else Raise JSONDecodeError;
     re_compile := word_re;
     py_int := decimal;
     read_lines := lines_of;
     SOURCE_CODE_TYPES_TO_EXT := extensions |}.

Definition nested_env : Env := env nested_pages no_files ∅.

Definition single_line_env : Env := env single_line_pages one_js_files ∅.


Definition files_env : Env := env no_pages long_js_files ∅.

Definition index_env : Env := env no_pages no_files ∅.

Definition a_js : list request :=
  [HttpGet "https://searchfox.org/mozilla-central/source/a.js"].



Definition scope_2_2 : FunctionDict :=
  {| name := "f"; path := "one.js"; start := 2; end_ := 2 |}.

Definition scope_1_3 : FunctionDict :=
  {| name := "whole"; path := "one.js"; start := 1; end_ := 3 |}.

(** A file view that answers with a server error, one without the [file]
    container, one whose second scope marker has no children, and one whose
    outer scope begins and ends with a nested scope. *)
Definition error_pages (url : string) : result Response :=
  Ok {| status_code := 503; text := ""; html := Elem ∅ [] |}.

Definition error_env : Env := env error_pages no_files ∅.

Definition bare_pages (url : string) : result Response :=
  Ok {| status_code := 200; text := ""; html := Elem ∅ [] |}.

Definition bare_env : Env := env bare_pages no_files ∅.

Definition childless_marker : Element := scope_marker "#b" [].

Definition childless_file : Element :=
  Elem {[ "id" := "file" ]}
    [scope_marker "#a" [line_marker "1"]; childless_marker].

Definition childless_pages (url : string) : result Response :=
  Ok {| status_code := 200; text := ""; html := Elem ∅ [childless_file] |}.

Definition childless_env : Env := env childless_pages no_files ∅.

Definition inner_first : Element :=
  scope_marker "#first" [line_marker "3"; line_marker "5"].

Definition inner_last : Element :=
  scope_marker "#last" [line_marker "7"; line_marker "9"].

Definition outer_marker : Element :=
  scope_marker "#outer" [inner_first; line_marker "6"; inner_last].

Definition outer_scope : FunctionDict :=
  {| name := "outer"; path := "n.js"; start := 3; end_ := 9 |}.

Definition first_scope : FunctionDict :=
  {| name := "first"; path := "n.js"; start := 3; end_ := 5 |}.

Definition last_scope : FunctionDict :=
  {| name := "last"; path := "n.js"; start := 7; end_ := 9 |}.

(** An index whose page always decodes to [mixed_index]. *)
Definition index_pages (url : string) : result Response :=
  Ok {| status_code := 200;
        text := "var results = {};" +:+ PyStr.LF;
        html := Elem ∅ [] |}.

Definition mixed_env : Env := env index_pages no_files mixed_index.

Definition missing_scope : FunctionDict :=
  {| name := "h"; path := "missing.js"; start := 1; end_ := 2 |}.

Definition error_response : Response :=
  {| status_code := 503; text := ""; html := Elem ∅ [] |}.

Definition bare_response : Response :=
  {| status_code := 200; text := ""; html := Elem ∅ [] |}.

Definition childless_response : Response :=
  {| status_code := 200; text := ""; html := Elem ∅ [childless_file] |}.

Definition index_response : Response :=
  {| status_code := 200;
     text := "var results = {};" +:+ PyStr.LF;
     html := Elem ∅ [] |}.



End Sample.


(** The verdict of the classifier on a hit, on the first of its lines. *)
Definition accepted (E : Env) (symbol_name : string) (symbol_word_re : Pattern)
    (value : Hit) : bool :=
  match hit_lines value with
  | [] => false
  | l :: _ => accepts_line E symbol_name symbol_word_re (hit_path value) (line l)
  end.

(** ** Facts about the string operations *)

Module PyStrFacts.
Import PyStr.

Lemma app_cons (c : ascii) (s t : string) :
  String c s +:+ t = String c (s +:+ t).
Proof. reflexivity. Qed.

Lemma app_nil_l (t : string) : EmptyString +:+ t = t.
Proof. reflexivity. Qed.

Lemma app_nil_r (s : string) : s +:+ EmptyString = s.
Proof. induction s as [|c s IH]; [done|]. by rewrite app_cons, IH. Qed.

Lemma app_assoc (s t u : string) : (s +:+ t) +:+ u = s +:+ (t +:+ u).
Proof. induction s as [|c s IH]; [done|]. by rewrite !app_cons, IH. Qed.




Lemma startswith_spec (s p : string) :
  startswith s p = true ↔ ∃ t, s = p +:+ t.
Proof.
  revert s. induction p as [|a p IH]; intros s.
  - split; [intros _; by exists s | by destruct s].
  - destruct s as [|b s]; simpl.
    + split; [done | intros [t Ht]; rewrite app_cons in Ht; discriminate].
    + destruct (decide (a = b)) as [->|Hne].
      * rewrite IH. split; intros [t Ht]; exists t.
        -- by rewrite app_cons, Ht.
        -- rewrite app_cons in Ht. by simplify_eq.
      * split; [done | intros [t Ht]; rewrite app_cons in Ht; by simplify_eq].
Qed.

Lemma find_unfold (sub s : string) :
  find sub s =
  if startswith s sub then Some O
  else match s with
       | EmptyString => None
       | String _ s' => S <$> find sub s'
       end.
Proof. by destruct s. Qed.

Lemma find_occurrence (sub s : string) (n : nat) :
  find sub s = Some n →
  ∃ pre post, s = pre +:+ sub +:+ post ∧ String.length pre = n.
Proof.
  revert n. induction s as [|c s IH]; intros n; rewrite find_unfold;
    destruct (startswith _ sub) eqn:Hp.
  - intros [= <-]. apply startswith_spec in Hp as [t Ht].
    by exists EmptyString, t.
  - done.
  - intros [= <-]. apply startswith_spec in Hp as [t Ht].
    by exists EmptyString, t.
  - destruct (find sub s) as [m|] eqn:Hf; [|done].
    intros [= <-]. destruct (IH m eq_refl) as (pre & post & -> & Hlen).
    exists (String c pre), post. split; [done | simpl; by rewrite Hlen].
Qed.

Lemma find_first (sub s : string) (n : nat) :
  find sub s = Some n →
  ∀ pre post, s = pre +:+ sub +:+ post → (n ≤ String.length pre)%nat.
Proof.
  revert n. induction s as [|c s IH]; intros n; rewrite find_unfold;
    destruct (startswith _ sub) eqn:Hp.
  - intros [= <-] ???. lia.
  - done.
  - intros [= <-] ???. lia.
  - destruct (find sub s) as [m|] eqn:Hf; [|done].
    intros [= <-] [|d pre] post Hs.
    + rewrite app_nil_l in Hs.
      assert (startswith (String c s) sub = true) as Ht
        by (apply startswith_spec; eauto).
      congruence.
    + rewrite app_cons in Hs. simplify_eq. simpl.
      specialize (IH m eq_refl pre post eq_refl). lia.
Qed.

Lemma find_complete (sub pre post : string) :
  is_Some (find sub (pre +:+ sub +:+ post)).
Proof.
  induction pre as [|c pre IH].
  - rewrite app_nil_l, find_unfold.
    assert (startswith (sub +:+ post) sub = true) as ->
      by (apply startswith_spec; eauto).
    eauto.
  - rewrite app_cons, find_unfold.
    destruct (startswith _ sub); [eauto|].
    destruct IH as [m ->]. simpl. eauto.
Qed.

Lemma contains_spec (s sub : string) :
  contains s sub = true ↔ ∃ pre post, s = pre +:+ sub +:+ post.
Proof.
  unfold contains. rewrite bool_decide_eq_true. split.
  - intros [n Hn]. apply find_occurrence in Hn as (pre & post & ? & _). eauto.
  - intros (pre & post & ->). apply find_complete.
Qed.


Lemma drop_1_cons (c : ascii) (s : string) : drop 1 (String c s) = s.
Proof. reflexivity. Qed.


End PyStrFacts.

(** ** The result monad *)

Lemma bind_Ok {A B} (a : A) (f : A → result B) : Ok a ≫= f = f a.
Proof. reflexivity. Qed.

Lemma bind_Raise {A B} (e : exn) (f : A → result B) : Raise e ≫= f = Raise e.
Proof. reflexivity. Qed.

Ltac result_step :=
  repeat first [rewrite bind_Ok | rewrite bind_Raise].

(** ** The scope resolver *)

Section ScopeFacts.
Context (E : Env).

Lemma get_functions_eq (c path : string) (sym : option string) :
  get_functions E c path sym =
  ([HttpGet (source_url path)],
   http_get E (source_url path) ≫= scopes_of_response E path sym).
Proof.
  unfold get_functions, call, lift. simpl.
  destruct (http_get E (source_url path)) as [r|e]; simpl; [|done].
  done.
Qed.

Lemma select_step_invariant (line : Z) (seen : list FunctionDict)
    (selected : option FunctionDict) (function : FunctionDict) :
  innermost_first line seen selected →
  innermost_first line (seen ++ [function])
    (select_step line selected function).
Proof.
  unfold select_step. intros Hinv.
  destruct (decide (start function ≤ line ≤ end_ function)) as [Hin|Hout].
  - destruct selected as [sel|]; simpl in *.
    + destruct Hinv as (before & after & -> & Hsel & Hb & Ha).
      destruct (decide (start sel < start function)) as [Hlt|Hge].
      * exists (before ++ sel :: after), []. split; [done|].
        split; [done|]. split; [|intros g Hg; by apply not_elem_of_nil in Hg].
        intros g Hg Hc. apply elem_of_app in Hg as [Hg|Hg].
        -- specialize (Hb g Hg Hc). lia.
        -- apply elem_of_cons in Hg as [->|Hg]; [done|].
           specialize (Ha g Hg Hc). lia.
      * exists before, (after ++ [function]). split.
        { by rewrite <- app_assoc. }
        split; [done|]. split; [done|].
        intros g Hg Hc. apply elem_of_app in Hg as [Hg|Hg]; [by apply Ha|].
        apply list_elem_of_singleton in Hg as ->. lia.
    + exists seen, []. split; [done|]. split; [done|].
      split; [|intros g Hg; by apply not_elem_of_nil in Hg].
      intros g Hg Hc. by destruct (Hinv g Hg).
  - destruct selected as [sel|]; simpl in *.
    + destruct Hinv as (before & after & -> & Hsel & Hb & Ha).
      exists before, (after ++ [function]). split.
      { by rewrite <- app_assoc. }
      split; [done|]. split; [done|].
      intros g Hg Hc. apply elem_of_app in Hg as [Hg|Hg]; [by apply Ha|].
      apply list_elem_of_singleton in Hg as ->. by destruct Hout.
    + intros f Hf. apply elem_of_app in Hf as [Hf|Hf]; [by apply Hinv|].
      by apply list_elem_of_singleton in Hf as ->.
Qed.

Lemma select_function_invariant (line : Z) (rest seen : list FunctionDict)
    (selected : option FunctionDict) :
  innermost_first line seen selected →
  innermost_first line (seen ++ rest) (foldl (select_step line) selected rest).
Proof.
  revert seen selected. induction rest as [|f rest IH]; intros seen sel Hinv.
  - by rewrite app_nil_r.
  - simpl. replace (seen ++ f :: rest) with ((seen ++ [f]) ++ rest)
      by (by rewrite <- app_assoc).
    apply IH. by apply select_step_invariant.
Qed.

Lemma select_function_innermost (line : Z) (functions : list FunctionDict) :
  innermost_first line functions (select_function line functions).
Proof.
  apply (select_function_invariant line functions [] None).
  intros f Hf. by apply not_elem_of_nil in Hf.
Qed.

(** C3: among the scopes of the file that contain the line, the enclosing
    scope resolution returns the one with the largest start line, the first
    seen among equals; when no scope contains the line it returns none, as a
    value and not as an exception. *)
Theorem find_function_for_line_innermost (c path : string) (line : Z)
    (tr : list request) (functions : list FunctionDict) :
  get_functions E c path None = (tr, Ok functions) →
  ∃ selected,
    find_function_for_line E c path line = (tr, Ok selected)
    ∧ innermost_first line functions selected.
Proof.
  intros Hget. exists (select_function line functions). split.
  - unfold find_function_for_line. rewrite Hget. simpl.
    by rewrite app_nil_r.
  - apply select_function_innermost.
Qed.

(** The recursion of [get_line_number], as the source writes it. *)
Lemma line_number_of_unfold (position : position) (element : Element) :
  line_number_of E position element =
  if decide (is_Some (attrib element !! "data-nesting-sym"))
  then get_line_number E (children element) position
  else line_id E element.
Proof.
  destruct element as [a cs]. simpl.
  destruct (decide (is_Some (a !! "data-nesting-sym"))); [|done].
  destruct position; [done|].
  induction cs as [|c cs IH]; [done|].
  destruct cs as [|c' cs]; [done|]. exact IH.
Qed.




(** C7: when the file view answers 404, the scope listing is the empty list,
    returned and not raised, and resolving a line of that file gives the
    empty list of results. *)
Theorem file_view_404_is_empty (c path : string) (sym : option string)
    (line : Z) (r : Response) :
  http_get E (source_url path) = Ok r →
  status_code r = 404 →
  get_functions E c path sym = ([HttpGet (source_url path)], Ok [])
  ∧ get_function_by_line E c path line = ([HttpGet (source_url path)], Ok []).
Proof.
  intros Hget H404.
  assert (∀ c' sym', get_functions E c' path sym'
                     = ([HttpGet (source_url path)], Ok [])) as Hfun.
  { intros c' sym'. rewrite get_functions_eq, Hget. simpl.
    unfold scopes_of_response. by destruct (decide (status_code r = 404)). }
  split; [apply Hfun|].
  unfold get_function_by_line, find_function_for_line. by rewrite Hfun.
Qed.

(** C8: when resolving a line has found its scope and fetching the raw file
    of that scope raises, the same exception leaves [get_function_by_line];
    no list, empty or not, is returned. *)
Theorem raw_content_failure_propagates (c file : string) (line : Z)
    (tr : list request) (d : FunctionDict) (e : exn) :
  find_function_for_line E (PyStr.or_else c "tip") file line
    = (tr, Ok (Some d)) →
  get_file E (PyStr.or_else c "tip") (path d) = Raise e →
  get_function_by_line E c file line
    = (tr ++ [GetFile (PyStr.or_else c "tip") (path d)], Raise e)
  ∧ ∀ l, (get_function_by_line E c file line).2 ≠ Ok l.
Proof.
  intros Hfind Hfile.
  assert (get_function_by_line E c file line
    = (tr ++ [GetFile (PyStr.or_else c "tip") (path d)], Raise e))
    as Hres.
  { unfold get_function_by_line. rewrite Hfind. simpl.
    unfold definition_to_result, extract_source, read_file, call.
    simpl. by rewrite Hfile. }
  split; [done|]. intros l. by rewrite Hres.
Qed.

(** C9: the revision does not reach the index query nor the scope lookup:
    for the same remote answers, two revisions give the same requests and
    the same results in [get_functions], [find_function_for_line] and
    [search]; only the raw file request carries the revision, and an empty
    revision stands for [tip]. *)
Theorem revision_only_reaches_raw_content (c1 c2 file symbol_name : string)
    (sym : option string) (line : Z) (d : FunctionDict) :
  get_functions E c1 file sym = get_functions E c2 file sym
  ∧ find_function_for_line E c1 file line = find_function_for_line E c2 file line
  ∧ search E c1 symbol_name = search E c2 symbol_name
  ∧ (definition_to_result E c1 d).1
    = [GetFile (PyStr.or_else c1 "tip") (path d)]
  ∧ PyStr.or_else "" "tip" = "tip"
  ∧ get_function_by_line E "" file line = get_function_by_line E "tip" file line
  ∧ get_function_by_name E "" file symbol_name
    = get_function_by_name E "tip" file symbol_name.
Proof.
  repeat split; try reflexivity.
  unfold definition_to_result, extract_source, read_file, call. simpl.
  by destruct (get_file E _ _).
Qed.


End ScopeFacts.

(** ** Source extraction *)

Section SourceFacts.
Context (E : Env).

Lemma count_in_range (a b : Z) (lines : list string) (k : Z) :
  length (filter (fun nl : Z * string => a ≤ nl.1 < b) (number_from k lines))
  = Z.to_nat (Z.min b (k + Z.of_nat (length lines)) - Z.max a k).
Proof.
  revert k. induction lines as [|l lines IH]; intros k; simpl.
  - lia.
  - rewrite filter_cons. simpl.
    destruct (decide (a ≤ k < b)); simpl; rewrite IH; lia.
Qed.

Lemma length_lines_in_range (first stop : Z) (lines : list string) :
  length (lines_in_range first stop lines)
  = Z.to_nat (Z.min stop (1 + Z.of_nat (length lines)) - Z.max first 1).
Proof. unfold lines_in_range. by rewrite length_fmap, count_in_range. Qed.

Lemma lines_in_range_succ (first last : Z) (lines : list string) :
  lines_in_range first (last + 1) lines = lines_inclusive first last lines.
Proof.
  unfold lines_in_range, lines_inclusive. f_equal.
  apply list_filter_iff. intros [n l]. simpl. lia.
Qed.

Lemma lines_in_range_empty (first : Z) (lines : list string) :
  lines_in_range first first lines = [].
Proof. apply nil_length_inv. rewrite length_lines_in_range. lia. Qed.

Lemma extract_source_read (c : string) (d : FunctionDict) (stream : string)
    (first stop : Z) :
  get_file E (PyStr.or_else c "tip") (path d) = Ok stream →
  extract_source E (path d) first stop (read_file E c)
  = ([GetFile (PyStr.or_else c "tip") (path d)],
     Ok (lines_in_range first stop (read_lines E stream))).
Proof.
  intros Hfile. unfold extract_source, read_file, call. simpl.
  by rewrite Hfile.
Qed.

Lemma definition_to_result_ok (c : string) (d : FunctionDict)
    (stream : string) :
  get_file E (PyStr.or_else c "tip") (path d) = Ok stream →
  definition_to_result E c d
  = ([GetFile (PyStr.or_else c "tip") (path d)],
     Ok {| fn_name := name d;
           fn_start := start d;
           fn_file := path d;
           fn_source :=
             PyStr.join PyStr.LF
               (lines_in_range (start d) (end_bound d) (read_lines E stream)) |}).
Proof.
  intros Hfile. unfold definition_to_result.
  by rewrite (extract_source_read c d stream).
Qed.


(** C2, as amended: when every raw file can be fetched, each resolved scope
    becomes one [Function]; for a scope whose start and end lines differ the
    source text is the lines from start to end, the end line included,
    joined by line feeds (that is [end - start + 1] lines when the file has
    them); for a scope of a single line the source text is empty. *)
Theorem source_text_of_scopes (c : string) (ds : list FunctionDict) :
  (∀ d, d ∈ ds → ∃ stream, get_file E (PyStr.or_else c "tip") (path d) = Ok stream) →
  ∃ fs,
    definitions_to_results E c ds
    = ((fun d => GetFile (PyStr.or_else c "tip") (path d)) <$> ds, Ok fs)
    ∧ Forall2 (fun d f =>
        ∃ stream,
          get_file E (PyStr.or_else c "tip") (path d) = Ok stream
          ∧ fn_name f = name d ∧ fn_start f = start d ∧ fn_file f = path d
          ∧ (start d ≠ end_ d →
             fn_source f
             = PyStr.join PyStr.LF
                 (lines_inclusive (start d) (end_ d) (read_lines E stream)))
          ∧ (1 ≤ start d < end_ d →
             end_ d ≤ Z.of_nat (length (read_lines E stream)) →
             Z.of_nat (length (lines_inclusive (start d) (end_ d)
                                 (read_lines E stream)))
             = end_ d - start d + 1)
          ∧ (start d = end_ d → fn_source f = EmptyString)) ds fs.
Proof.
  unfold definitions_to_results.
  induction ds as [|d ds IH]; intros Hfiles.
  - exists []. split; [done | constructor].
  - destruct (Hfiles d) as [stream Hfile]; [by left|].
    destruct IH as (fs & Hrest & Hall).
    { intros d' Hd'. apply Hfiles. by right. }
    eexists (_ :: fs). split.
    + simpl. rewrite (definition_to_result_ok c d stream Hfile).
      simpl. rewrite Hrest. simpl. by rewrite app_nil_r.
    + constructor; [|done]. exists stream. simpl.
      repeat split; try done.
      * intros Hne. unfold end_bound.
        destruct (decide (end_ d ≠ start d)) as [_|Heq];
          [|destruct Heq; congruence].
        by rewrite lines_in_range_succ.
      * intros Hord Hlen. rewrite <- lines_in_range_succ.
        rewrite length_lines_in_range. lia.
      * intros Heq. unfold end_bound.
        destruct (decide (end_ d ≠ start d)); [congruence|].
        rewrite <- Heq. by rewrite lines_in_range_empty.
Qed.

End SourceFacts.

(** ** The definition classifier *)

Section ClassifierFacts.
Context (E : Env).

(** A loop that appends to its accumulator the elements of [g x] that pass
    [P] collects the elements of all the [g x] that pass [P]. *)
Lemma for_each_collect {A} (P : Hit → bool) (g : A → list Hit)
    (f : list Hit → A → result (list Hit)) (l : list A) :
  (∀ x, x ∈ l → ∀ acc, f acc x = Ok (acc ++ filter (fun h => P h) (g x))) →
  ∀ acc, for_each f acc l = Ok (acc ++ filter (fun h => P h) (l ≫= g)).
Proof.
  induction l as [|x l IH]; intros Hf acc.
  - simpl. by rewrite app_nil_r.
  - rewrite bind_cons. simpl. rewrite (Hf x); [|by left]. result_step.
    rewrite IH; [|intros y Hy; apply Hf; by right].
    by rewrite filter_app, app_assoc.
Qed.

Lemma bind_singletons {A} (l : list A) : l ≫= (fun v => [v]) = l.
Proof. induction l as [|v l IH]; [done|]. by rewrite bind_cons, IH. Qed.

Lemma scan_value_collect (symbol_name : string) (re : Pattern)
    (value : Hit) (acc : list Hit) :
  hit_lines value ≠ [] →
  scan_value E symbol_name re acc value
  = Ok (acc ++ filter (fun h => accepted E symbol_name re h) [value]).
Proof.
  intros Hlines. unfold scan_value, first_line.
  rewrite filter_cons, filter_nil. unfold accepted.
  destruct (hit_lines value) as [|l ls]; [done|]. result_step.
  destruct (accepts_line E symbol_name re (hit_path value) (line l));
    simpl; [done | by rewrite app_nil_r].
Qed.

Lemma scan_bucket_collect (symbol_name : string) (re : Pattern)
    (bucket : string * list Hit) (acc : list Hit) :
  (∀ h, h ∈ bucket_hits symbol_name bucket → hit_lines h ≠ []) →
  scan_bucket E symbol_name re acc bucket
  = Ok (acc ++ filter (fun h => accepted E symbol_name re h)
                 (bucket_hits symbol_name bucket)).
Proof.
  unfold scan_bucket, bucket_hits. intros Hlines.
  destruct (bucket_matches symbol_name bucket.1).
  - rewrite (for_each_collect (accepted E symbol_name re) (fun v => [v])).
    + by rewrite bind_singletons.
    + intros v Hv acc'. apply scan_value_collect. by apply Hlines.
  - by rewrite filter_nil, app_nil_r.
Qed.

Lemma scan_type_collect (symbol_name : string) (re : Pattern)
    (results : Results) (type_ : string) (acc : list Hit) :
  (∀ h, h ∈ category_hits symbol_name results type_ → hit_lines h ≠ []) →
  scan_type E symbol_name re results acc type_
  = Ok (acc ++ filter (fun h => accepted E symbol_name re h)
                 (category_hits symbol_name results type_)).
Proof.
  unfold scan_type, category_hits. intros Hlines.
  destruct (results !! type_) as [buckets|].
  - apply for_each_collect. intros bucket Hb acc'.
    apply scan_bucket_collect. intros h Hh. apply Hlines.
    apply list_elem_of_bind. eauto.
  - by rewrite filter_nil, app_nil_r.
Qed.

Lemma find_definitions_collect (symbol_name : string) (re : Pattern)
    (results : Results) :
  (∀ h, h ∈ candidates symbol_name results → hit_lines h ≠ []) →
  find_definitions E symbol_name re results
  = Ok (filter (fun h => accepted E symbol_name re h)
          (candidates symbol_name results)).
Proof.
  intros Hlines. unfold find_definitions.
  rewrite (for_each_collect (accepted E symbol_name re)
             (category_hits symbol_name results)); [done|].
  intros type_ Ht acc. apply scan_type_collect. intros h Hh.
  apply Hlines. apply list_elem_of_bind. eauto.
Qed.


(** In a Rust file the rule does not depend on the symbol: a line that has
    neither a pipe nor the text [fn {symbol_name}] is rejected. *)
Lemma rust_rule_rejects (symbol_name : string) (re : Pattern)
    (path line : string) :
  has_ext path (SOURCE_CODE_TYPES_TO_EXT E "Rust") = true →
  PyStr.contains line "|" = false →
  PyStr.contains line "fn {symbol_name}" = false →
  accepts_line E symbol_name re path line = false.
Proof.
  intros Hext Hpipe Hfn. unfold accepts_line, looks_like_definition.
  destruct (negb (PyStr.contains line symbol_name)); [done|].
  rewrite Hext, Hfn. unfold word_before. by rewrite Hpipe.
Qed.



End ClassifierFacts.

(** ** The resolver on concrete inputs *)

Section Examples.
Import Sample.

(** The nested scopes of the specification: line 15 lies in [B], line 50
    only in [A], line 200 in neither. *)
Example enclosing_scope_examples :
  find_function_for_line nested_env "tip" "a.js" 15 = (a_js, Ok (Some scope_B))
  ∧ find_function_for_line nested_env "tip" "a.js" 50 = (a_js, Ok (Some scope_A))
  ∧ find_function_for_line nested_env "tip" "a.js" 200 = (a_js, Ok None).
Proof. repeat split; vm_compute; reflexivity. Qed.

(** The nested scopes again, through the theorem on the enclosing scope. *)
Lemma find_function_for_line_innermost_witness :
  get_functions nested_env "tip" "a.js" None = (a_js, Ok [scope_A; scope_B])
  ∧ ∃ selected,
      find_function_for_line nested_env "tip" "a.js" 15 = (a_js, Ok selected)
      ∧ innermost_first 15 [scope_A; scope_B] selected.
Proof.
  split; [vm_compute; reflexivity|].
  apply find_function_for_line_innermost. vm_compute. reflexivity.
Defined.

(** The file [b.js] is unknown to the file view. *)
Lemma file_view_404_is_empty_witness :
  http_get nested_env (source_url "b.js")
    = Ok {| status_code := 404; text := ""; html := Elem ∅ [] |}
  ∧ get_functions nested_env "tip" "b.js" None
    = ([HttpGet (source_url "b.js")], Ok [])
  ∧ get_function_by_line nested_env "tip" "b.js" 7
    = ([HttpGet (source_url "b.js")], Ok []).
Proof.
  split; [vm_compute; reflexivity|].
  apply (file_view_404_is_empty nested_env "tip" "b.js" None 7
           {| status_code := 404; text := ""; html := Elem ∅ [] |});
    vm_compute; reflexivity.
Defined.

(** The scope of line 15 of [a.js] is found, its raw file is not. *)
Lemma raw_content_failure_propagates_witness :
  find_function_for_line nested_env (PyStr.or_else "" "tip") "a.js" 15
    = (a_js, Ok (Some scope_B))
  ∧ get_file nested_env (PyStr.or_else "" "tip") (path scope_B)
    = Raise (HTTPError 404)
  ∧ get_function_by_line nested_env "" "a.js" 15
    = (a_js ++ [GetFile (PyStr.or_else "" "tip") (path scope_B)],
       Raise (HTTPError 404)).
Proof.
  split; [vm_compute; reflexivity|]. split; [vm_compute; reflexivity|].
  apply (raw_content_failure_propagates nested_env "" "a.js" 15 a_js scope_B
           (HTTPError 404)); vm_compute; reflexivity.
Defined.




(** Two scopes of [one.js], of three lines and of one line. *)
Lemma source_text_of_scopes_witness :
  (∀ d, d ∈ [scope_1_3; scope_2_2] →
        ∃ stream, get_file single_line_env (PyStr.or_else "" "tip") (path d)
                  = Ok stream)
  ∧ ∃ fs,
      definitions_to_results single_line_env "" [scope_1_3; scope_2_2]
      = ([GetFile "tip" "one.js"; GetFile "tip" "one.js"], Ok fs)
      ∧ length fs = 2%nat.
Proof.
  assert (∀ d, d ∈ [scope_1_3; scope_2_2] →
            ∃ stream, get_file single_line_env (PyStr.or_else "" "tip") (path d)
                      = Ok stream) as Hfiles.
  { intros d Hd. exists one_js.
    apply elem_of_cons in Hd as [->|Hd]; [reflexivity|].
    apply list_elem_of_singleton in Hd as ->. reflexivity. }
  split; [exact Hfiles|].
  destruct (source_text_of_scopes single_line_env "" [scope_1_3; scope_2_2]
              Hfiles) as (fs & Hres & Hall).
  exists fs. split; [exact Hres|].
  symmetry. exact (Forall2_length _ _ _ Hall).
Defined.

(** C2, as stated, fails on a scope of one line: the scope of [one.js] that
    starts and ends on line 2 resolves to an empty source text, while line 2
    of the file is not empty. *)
Lemma single_line_scope_has_no_source :
  get_function_by_line single_line_env "" "one.js" 2
    = ([HttpGet (source_url "one.js"); GetFile "tip" "one.js"],
       Ok [{| fn_name := "f"; fn_start := 2; fn_file := "one.js";
              fn_source := EmptyString |}])
  ∧ find_function_for_line single_line_env "tip" "one.js" 2
    = ([HttpGet (source_url "one.js")], Ok (Some scope_2_2))
  ∧ lines_inclusive 2 2 (read_lines single_line_env one_js)
    = ["var f = x => x + 1;"]
  ∧ PyStr.join PyStr.LF (lines_inclusive 2 2 (read_lines single_line_env one_js))
    ≠ EmptyString.
Proof.
  split; [vm_compute; reflexivity|]. split; [vm_compute; reflexivity|].
  split; [vm_compute; reflexivity|]. vm_compute. discriminate.
Qed.



(** C1 fails on the code: the line of a Rust function [foo] contains
    [fn foo], yet the hit is rejected whatever the word search finds, and
    the classifier returns no path. *)
Theorem rust_fn_definition_rejected :
  has_ext (hit_path rust_hit) (SOURCE_CODE_TYPES_TO_EXT index_env "Rust") = true
  ∧ first_line rust_hit = Ok "pub fn foo(x: u32) -> u32 {"
  ∧ PyStr.contains "pub fn foo(x: u32) -> u32 {" "foo" = true
  ∧ PyStr.contains "pub fn foo(x: u32) -> u32 {" ("fn " +:+ "foo") = true
  ∧ candidates "foo" rust_index = [rust_hit]
  ∧ (∀ re, accepted index_env "foo" re rust_hit = false)
  ∧ classify index_env "foo" rust_index = Ok ∅.
Proof.
  repeat split; try (vm_compute; reflexivity).
Qed.

(** The lines of the specification's examples: a C line with a call
    syntax is accepted; in a script file [handler] stands before the arrow
    and is accepted, [foo] stands after it and is rejected. *)
Example classification_examples :
  accepts_line index_env "foo" (word_search_from "foo" false) "x.c"
    "int foo(int x) { return foo(x); }" = true
  ∧ accepts_line index_env "handler" (word_search_from "handler" false) "x.js"
      "const handler = x => x.foo" = true
  ∧ accepts_line index_env "foo" (word_search_from "foo" false) "x.js"
      "const handler = x => x.foo" = false
  ∧ accepts_line index_env "foo" (word_search_from "foo" false) "x.py"
      "foo = lambda x: x" = true
  ∧ accepts_line index_env "foo" (word_search_from "foo" false) "x.rs"
      "let foo = |x| x + 1;" = true
  ∧ accepts_line index_env "foo" (word_search_from "foo" false) "x.rs"
      "fn foo() {}" = false.
Proof. repeat split; vm_compute; reflexivity. Qed.

(** A whole resolution by name: one index query, one file view, one raw
    file; the scope of [foo] spans lines 2 to 4 of [a.c]. *)
Example get_function_by_name_example :
  search foo_env "tip" "foo"
    = ([HttpGet (search_url "foo"); HttpGet (source_url "a.c")],
       Ok [{| name := "foo"; path := "a.c"; start := 2; end_ := 4 |}])
  ∧ get_function_by_name foo_env "" "ignored" "foo"
    = ([HttpGet (search_url "foo"); HttpGet (source_url "a.c");
        GetFile "tip" "a.c"],
       Ok [{| fn_name := "foo"; fn_start := 2; fn_file := "a.c";
              fn_source := "int foo(int x)" +:+ PyStr.LF +:+ "{ return x; }"
                           +:+ PyStr.LF +:+ "/* end of foo */" |}]).
Proof. split; vm_compute; reflexivity. Qed.

End Examples.

(** ** Further facts about the scope listing *)

Section ListingFacts.
Context (E : Env).

Lemma find_function_for_line_eq (c path : string) (line : Z) :
  find_function_for_line E c path line
  = ([HttpGet (source_url path)],
     select_function line
       <$> (http_get E (source_url path) ≫= scopes_of_response E path None)).
Proof.
  unfold find_function_for_line. rewrite get_functions_eq.
  by destruct (http_get E (source_url path) ≫= scopes_of_response E path None).
Qed.

Lemma mapM_result_fail {A B} (f : A → result B) (l : list A) (x : A)
    (e0 : exn) :
  x ∈ l → f x = Raise e0 → ∃ e, mapM f l = Raise e.
Proof.
  induction l as [|y l IH]; intros Hx Hfx.
  - by apply not_elem_of_nil in Hx.
  - simpl. destruct (f y) as [b|e] eqn:Hy; result_step; [|by exists e].
    apply elem_of_cons in Hx as [->|Hx]; [congruence|].
    destruct (IH Hx Hfx) as [e ->]. result_step. by exists e.
Qed.

Lemma mapM_result_sublist {A B} (f : A → result B) (l' l : list A)
    (ys : list B) :
  l' `sublist_of` l → mapM f l = Ok ys →
  ∃ ys', mapM f l' = Ok ys' ∧ ys' `sublist_of` ys.
Proof.
  intros Hsub. revert ys. induction Hsub as [|x l1 l2 Hsub IH|x l1 l2 Hsub IH];
    intros ys; simpl.
  - intros [= <-]. by exists [].
  - destruct (f x) as [y|]; result_step; [|done].
    destruct (mapM f l2) as [k|] eqn:Hk; result_step; [|done].
    intros [= <-]. destruct (IH k eq_refl) as (k' & -> & Hk').
    result_step. exists (y :: k'). split; [done | by constructor].
  - destruct (f x) as [y|]; result_step; [|done].
    destruct (mapM f l2) as [k|] eqn:Hk; result_step; [|done].
    intros [= <-]. destruct (IH k eq_refl) as (k' & -> & Hk').
    exists k'. split; [done | by constructor].
Qed.

(** X1: a file view that answers with an error status other than 404 makes
    the listing raise the HTTP error, and resolving a line of that file
    raises it too, after the single request to the file view. *)
Theorem file_view_error_status (c path : string) (sym : option string)
    (line : Z) (r : Response) :
  http_get E (source_url path) = Ok r →
  400 ≤ status_code r < 600 →
  status_code r ≠ 404 →
  get_functions E c path sym
    = ([HttpGet (source_url path)], Raise (HTTPError (status_code r)))
  ∧ get_function_by_line E c path line
    = ([HttpGet (source_url path)], Raise (HTTPError (status_code r))).
Proof.
  intros Hget Hrange Hne.
  assert (∀ sym', scopes_of_response E path sym' r
                  = Raise (HTTPError (status_code r))) as Hres.
  { intros sym'. unfold scopes_of_response, raise_for_status.
    destruct (decide (status_code r = 404)); [done|].
    by destruct (decide (400 ≤ status_code r < 600)). }
  split.
  - rewrite get_functions_eq, Hget. result_step. by rewrite Hres.
  - unfold get_function_by_line. rewrite find_function_for_line_eq, Hget.
    result_step. by rewrite Hres.
Qed.

(** X2: a successful file view whose document does not hold exactly one
    element with the id [file] makes the listing raise an assertion error. *)
Theorem file_view_needs_one_container (c path : string) (sym : option string)
    (r : Response) :
  http_get E (source_url path) = Ok r →
  ¬ (400 ≤ status_code r < 600) →
  length (find_by_id "file" (html r)) ≠ 1%nat →
  get_functions E c path sym = ([HttpGet (source_url path)], Raise AssertionError).
Proof.
  intros Hget Hok Hlen. rewrite get_functions_eq, Hget. result_step.
  unfold scopes_of_response, raise_for_status.
  destruct (decide (status_code r = 404)) as [H404|]; [lia|].
  destruct (decide (400 ≤ status_code r < 600)); [done|]. result_step.
  by destruct (find_by_id "file" (html r)) as [|file [|]].
Qed.

(** X3: whatever makes the unfiltered listing of a file raise also leaves
    the resolution of any line of that file, with the same requests: no raw
    file is fetched and no list is returned. *)
Theorem listing_failure_propagates (c c' path : string) (line : Z)
    (tr : list request) (e : exn) :
  get_functions E c path None = (tr, Raise e) →
  find_function_for_line E c' path line = (tr, Raise e)
  ∧ get_function_by_line E c' path line = (tr, Raise e).
Proof.
  rewrite get_functions_eq. intros [= <- Hres].
  assert (find_function_for_line E (PyStr.or_else c' "tip") path line
          = ([HttpGet (source_url path)], Raise e)) as Hfind.
  { rewrite find_function_for_line_eq. by rewrite Hres. }
  split.
  - rewrite find_function_for_line_eq. by rewrite Hres.
  - unfold get_function_by_line. by rewrite Hfind.
Qed.

(** X4: the listing has no partial results: when the dict of one of the
    scope markers that pass the name filter cannot be built, the whole
    listing raises. *)
Theorem unresolvable_marker_fails_listing (c path : string)
    (sym : option string) (r : Response) (file sw : Element) (e0 : exn) :
  http_get E (source_url path) = Ok r →
  ¬ (400 ≤ status_code r < 600) →
  find_by_id "file" (html r) = [file] →
  sw ∈ sym_wraps_of file sym →
  function_dict E path sw = Raise e0 →
  ∃ e, get_functions E c path sym = ([HttpGet (source_url path)], Raise e).
Proof.
  intros Hget Hok Hfile Hsw Hdict. rewrite get_functions_eq, Hget. result_step.
  unfold scopes_of_response, raise_for_status.
  destruct (decide (status_code r = 404)) as [H404|]; [lia|].
  destruct (decide (400 ≤ status_code r < 600)); [done|]. result_step.
  rewrite Hfile. result_step.
  destruct (mapM_result_fail (function_dict E path) _ sw e0 Hsw Hdict) as [e ->].
  by exists e.
Qed.

(** A scope marker without children has no start line. *)
Lemma childless_marker_raises (path sym : string) (a : gmap string string) :
  a !! "data-nesting-sym" = Some sym →
  function_dict E path (Elem a []) = Raise StopIteration.
Proof. intros Ha. unfold function_dict. simpl. by rewrite Ha. Qed.

Lemma sym_wraps_filter_sublist (file : Element) (s : string) :
  sym_wraps_of file (Some s) `sublist_of` sym_wraps_of file None.
Proof.
  unfold sym_wraps_of.
  induction (iterdescendants file) as [|x l IH]; [constructor|].
  rewrite !filter_cons.
  assert (is_sym_wrap (Some s) x = true → is_sym_wrap None x = true) as Himp.
  { unfold is_sym_wrap. by destruct (attrib x !! "data-nesting-sym"). }
  destruct (decide (is_sym_wrap (Some s) x)) as [Hs|Hs].
  - apply Is_true_true in Hs. apply Himp in Hs.
    destruct (decide (is_sym_wrap None x)) as [_|Hn];
      [by constructor | by rewrite Hs in Hn].
  - destruct (decide (is_sym_wrap None x)); [by constructor | done].
Qed.

(** X5: the name filter only removes scopes: where the unfiltered listing of
    a file succeeds, the listing filtered by a symbol succeeds too, with the
    same request, and its scopes are a sublist, in the same order, of the
    unfiltered ones. *)
Theorem name_filter_sublist (c path s : string) (tr : list request)
    (fs : list FunctionDict) :
  get_functions E c path None = (tr, Ok fs) →
  ∃ fs', get_functions E c path (Some s) = (tr, Ok fs')
         ∧ fs' `sublist_of` fs.
Proof.
  rewrite !get_functions_eq. intros [= <- Hres].
  destruct (http_get E (source_url path)) as [r|]; [|done].
  revert Hres. result_step. unfold scopes_of_response.
  destruct (decide (status_code r = 404)).
  { intros [= <-]. by exists []. }
  destruct (raise_for_status r); result_step; [|done].
  destruct (find_by_id "file" (html r)) as [|file [|]]; result_step;
    try done.
  intros Hres.
  destruct (mapM_result_sublist _ _ _ _ (sym_wraps_filter_sublist file s) Hres)
    as (fs' & -> & Hsub).
  by exists fs'.
Qed.

Lemma get_line_number_first (element : Element) (rest : list Element) :
  get_line_number E (element :: rest) start_pos
  = line_number_of E start_pos element.
Proof. reflexivity. Qed.

Lemma get_line_number_last (element : Element) (before : list Element) :
  get_line_number E (before ++ [element]) end_pos
  = line_number_of E end_pos element.
Proof. unfold get_line_number. by rewrite last_snoc. Qed.

(** X6: boundaries are deferred to nested markers: a scope whose first child
    is itself a scope marker starts on the start line of that nested scope,
    and a scope whose last child is a scope marker ends on its end line. *)
Theorem nested_marker_shares_boundaries (path : string)
    (outer inner : Element) (others : list Element) (f g : FunctionDict) :
  function_dict E path outer = Ok f →
  function_dict E path inner = Ok g →
  (children outer = inner :: others → start f = start g)
  ∧ (children outer = others ++ [inner] → end_ f = end_ g).
Proof.
  unfold function_dict. intros Hf Hg.
  destruct (attrib outer !! "data-nesting-sym") as [so|]; [|done].
  destruct (attrib inner !! "data-nesting-sym") as [si|] eqn:Hsi; [|done].
  destruct (get_line_number E (children outer) start_pos) as [s1|] eqn:Hs1;
    revert Hf; result_step; [|done].
  destruct (get_line_number E (children outer) end_pos) as [e1|] eqn:He1;
    result_step; [|done].
  intros [= <-].
  destruct (get_line_number E (children inner) start_pos) as [s2|] eqn:Hs2;
    revert Hg; result_step; [|done].
  destruct (get_line_number E (children inner) end_pos) as [e2|] eqn:He2;
    result_step; [|done].
  intros [= <-]. simpl.
  assert (is_Some (attrib inner !! "data-nesting-sym")) as Hnest by eauto.
  split; intros Hch.
  - rewrite Hch, get_line_number_first, line_number_of_unfold in Hs1.
    destruct (decide (is_Some (attrib inner !! "data-nesting-sym")));
      [congruence | done].
  - rewrite Hch, get_line_number_last, line_number_of_unfold in He1.
    destruct (decide (is_Some (attrib inner !! "data-nesting-sym")));
      [congruence | done].
Qed.

(** X19: a plain line marker gives its own number: the scope whose first
    child is the element with id [line-N] starts on line [N], and the scope
    whose last child is that element ends on line [N]. *)
Theorem plain_marker_boundaries (element : Element)
    (after before : list Element) (n : string) (k : Z) :
  attrib element !! "data-nesting-sym" = None →
  attrib element !! "id" = Some ("line-" +:+ n) →
  py_int E n = Some k →
  get_line_number E (element :: after) start_pos = Ok k
  ∧ get_line_number E (before ++ [element]) end_pos = Ok k.
Proof.
  intros Hplain Hid Hint.
  assert (∀ position, line_number_of E position element = Ok k) as Hline.
  { intros position. rewrite line_number_of_unfold, Hplain.
    destruct (decide (is_Some (None : option string))) as [[? ?]|_]; [done|].
    unfold line_id. rewrite Hid.
    change (PyStr.drop 5 ("line-" +:+ n)) with n. by rewrite Hint. }
  by rewrite get_line_number_first, get_line_number_last, !Hline.
Qed.

End ListingFacts.

(** ** Further facts about resolving a line *)

Section LineFacts.
Context (E : Env).

Lemma select_foldl_filter (line : Z) (functions : list FunctionDict)
    (selected : option FunctionDict) :
  foldl (select_step line) selected functions
  = foldl (select_step line) selected
      (filter (fun f => contains_line f line) functions).
Proof.
  revert selected. induction functions as [|f fs IH]; intros selected;
    [done|].
  rewrite filter_cons.
  destruct (decide (contains_line f line)) as [Hin|Hout]; simpl.
  - apply IH.
  - rewrite <- IH. f_equal. unfold select_step.
    by destruct (decide (start f ≤ line ≤ end_ f)).
Qed.

(** X7: scopes that do not contain the line play no part in the choice of the
    enclosing scope: removing them from the listing, wherever they stand,
    leaves the selected scope unchanged. *)
Theorem select_ignores_other_scopes (line : Z) (functions : list FunctionDict) :
  select_function line functions
  = select_function line (filter (fun f => contains_line f line) functions).
Proof. apply select_foldl_filter. Qed.



Lemma select_function_member (line : Z) (functions : list FunctionDict)
    (d : FunctionDict) :
  select_function line functions = Some d →
  d ∈ functions ∧ contains_line d line.
Proof.
  intros Hsel. pose proof (select_function_innermost line functions) as Hin.
  rewrite Hsel in Hin. destruct Hin as (before & after & -> & Hc & _).
  split; [|done]. apply elem_of_app. right. by left.
Qed.

Lemma select_function_none (line : Z) (functions : list FunctionDict) :
  (∀ f, f ∈ functions → ¬ contains_line f line) →
  select_function line functions = None.
Proof.
  intros Hnone. destruct (select_function line functions) as [d|] eqn:Hsel;
    [|done].
  apply select_function_member in Hsel as [Hd Hc]. by destruct (Hnone d Hd).
Qed.


(** X9: a line that no listed scope contains resolves to the empty list, and
    no raw file is fetched for it. *)
Theorem by_line_outside_any_scope (c file : string) (line : Z)
    (tr : list request) (functions : list FunctionDict) :
  get_functions E (PyStr.or_else c "tip") file None = (tr, Ok functions) →
  (∀ f, f ∈ functions → ¬ contains_line f line) →
  get_function_by_line E c file line = (tr, Ok []).
Proof.
  intros Hget Hnone. unfold get_function_by_line, find_function_for_line.
  rewrite Hget. simpl. rewrite (select_function_none line functions Hnone).
  simpl. by rewrite !app_nil_r.
Qed.

End LineFacts.

(** ** Further facts about the search by name *)

Section SearchFacts.
Context (E : Env).

Lemma results_text_marker (text : string) :
  (PyStr.contains text "var results = " = false →
   results_text text = Raise IndexError)
  ∧ (PyStr.contains text "var results = " = true →
     ∃ t, results_text text = Ok t).
Proof.
  unfold results_text, PyStr.split1, PyStr.contains.
  destruct (PyStr.find "var results = " text) as [n|]; split.
  - intros Hc. apply bool_decide_eq_false in Hc. destruct Hc. eauto.
  - intros _.
    destruct (PyStr.find _ (PyStr.drop _ text)); eauto.
  - done.
  - intros Hc. apply bool_decide_eq_true in Hc. by destruct Hc.
Qed.

(** X10: a page of the index without the text [var results = ] makes the
    search raise an index error right after the index request: nothing is
    decoded and no file view is asked for; the resolution by name raises the
    same error. *)
Theorem search_malformed_page (c file symbol_name : string) (r : Response) :
  http_get E (search_url symbol_name) = Ok r →
  ¬ (400 ≤ status_code r < 600) →
  PyStr.contains (text r) "var results = " = false →
  search E c symbol_name = ([HttpGet (search_url symbol_name)], Raise IndexError)
  ∧ get_function_by_name E c file symbol_name
    = ([HttpGet (search_url symbol_name)], Raise IndexError).
Proof.
  intros Hget Hok Hmark.
  assert (∀ c', search E c' symbol_name
                = ([HttpGet (search_url symbol_name)], Raise IndexError)) as Hs.
  { intros c'. unfold search, call, lift. rewrite Hget. simpl.
    unfold raise_for_status.
    destruct (decide (400 ≤ status_code r < 600)); [done|]. simpl.
    by rewrite (proj1 (results_text_marker (text r)) Hmark). }
  split; [apply Hs|]. unfold get_function_by_name. by rewrite Hs.
Qed.

Lemma search_after_classify (c symbol_name t : string) (r : Response)
    (results : Results) (paths : gset string) :
  http_get E (search_url symbol_name) = Ok r →
  ¬ (400 ≤ status_code r < 600) →
  results_text (text r) = Ok t →
  json_loads E t = Ok results →
  classify E symbol_name results = Ok paths →
  search E c symbol_name
  = (HttpGet (search_url symbol_name)
       :: (mapM (fun p => get_functions E c p (Some symbol_name))
             (elements paths)).1,
     @concat _ <$> (mapM (fun p => get_functions E c p (Some symbol_name))
                   (elements paths)).2).
Proof.
  intros Hget Hok Htext Hjson Hclass.
  unfold search, call, lift. rewrite Hget. simpl.
  unfold raise_for_status.
  destruct (decide (400 ≤ status_code r < 600)); [done|]. simpl.
  rewrite Htext. simpl. rewrite Hjson. simpl. rewrite Hclass. simpl.
  destruct (mapM _ (elements paths)) as [tr [fs|e]]; simpl; [|done].
  by rewrite app_nil_r.
Qed.




(** X12: a symbol for which the index response holds no candidate resolves
    to the empty list, by search and by name, after the index request alone:
    no match is a value, not an error. *)
Theorem search_without_candidates (c file symbol_name t : string)
    (r : Response) (results : Results) (re : Pattern) :
  http_get E (search_url symbol_name) = Ok r →
  ¬ (400 ≤ status_code r < 600) →
  results_text (text r) = Ok t →
  json_loads E t = Ok results →
  re_compile E ("\b" +:+ symbol_name +:+ "\b") = Ok re →
  candidates symbol_name results = [] →
  search E c symbol_name = ([HttpGet (search_url symbol_name)], Ok [])
  ∧ get_function_by_name E c file symbol_name
    = ([HttpGet (search_url symbol_name)], Ok []).
Proof.
  intros Hget Hok Htext Hjson Hre Hcand.
  assert (classify E symbol_name results = Ok ∅) as Hclass.
  { unfold classify. rewrite Hre. result_step.
    rewrite find_definitions_collect.
    - by rewrite Hcand.
    - rewrite Hcand. intros h Hh. by apply not_elem_of_nil in Hh. }
  assert (∀ c', search E c' symbol_name
                = ([HttpGet (search_url symbol_name)], Ok [])) as Hs.
  { intros c'.
    rewrite (search_after_classify c' symbol_name t r results ∅); try done. }
  split; [apply Hs|]. unfold get_function_by_name. by rewrite Hs.
Qed.

End SearchFacts.

(** ** Further facts about the language rules *)

Section RuleFacts.
Context (E : Env).

Lemma contains_part (s before part after : string) :
  PyStr.contains s (before +:+ part +:+ after) = true →
  PyStr.contains s part = true.
Proof.
  rewrite !PyStrFacts.contains_spec. intros (pre & post & ->).
  exists (pre +:+ before), (after +:+ post).
  by rewrite !PyStrFacts.app_assoc.
Qed.

Lemma contains_head (s part after : string) :
  PyStr.contains s (part +:+ after) = true → PyStr.contains s part = true.
Proof. apply (contains_part s EmptyString part after). Qed.

(** X13: a hit in a file of none of the known language families is accepted
    exactly when its line contains the symbol; no rule is applied to it. *)
Theorem unknown_extension_accepts (symbol_name : string) (re : Pattern)
    (file line : string) :
  has_ext file (SOURCE_CODE_TYPES_TO_EXT E "Rust") = false →
  has_ext file (SOURCE_CODE_TYPES_TO_EXT E "Javascript") = false →
  has_ext file (SOURCE_CODE_TYPES_TO_EXT E "C/C++"
                ++ SOURCE_CODE_TYPES_TO_EXT E "Objective-C/C++") = false →
  has_ext file (SOURCE_CODE_TYPES_TO_EXT E "Python") = false →
  accepts_line E symbol_name re file line = PyStr.contains line symbol_name.
Proof.
  intros Hr Hj Hc Hp. unfold accepts_line, looks_like_definition.
  rewrite Hr, Hj, Hc, Hp. by destruct (PyStr.contains line symbol_name).
Qed.

(** X14: outside Rust files, when the symbol does not occur as a whole word
    in the line, the conditions on positions are all off and only the
    literal conditions decide: the call syntax or [function NAME] in a
    script file, the call syntax in a C family file, [def NAME(] in a Python
    file. *)
Theorem no_word_match_literal_only (symbol_name : string) (re : Pattern)
    (file line : string) :
  has_ext file (SOURCE_CODE_TYPES_TO_EXT E "Rust") = false →
  re line = None →
  accepts_line E symbol_name re file line
  = PyStr.contains line symbol_name
    && (if has_ext file (SOURCE_CODE_TYPES_TO_EXT E "Javascript")
        then PyStr.contains line (symbol_name +:+ "(")
             || PyStr.contains line ("function " +:+ symbol_name)
        else if has_ext file (SOURCE_CODE_TYPES_TO_EXT E "C/C++"
                              ++ SOURCE_CODE_TYPES_TO_EXT E "Objective-C/C++")
        then PyStr.contains line (symbol_name +:+ "(")
        else if has_ext file (SOURCE_CODE_TYPES_TO_EXT E "Python")
        then PyStr.contains line ("def " +:+ symbol_name +:+ "(")
        else true).
Proof.
  intros Hr Hre. unfold accepts_line, looks_like_definition, word_before.
  rewrite Hr, Hre.
  destruct (PyStr.contains line symbol_name); simpl; [|done].
  repeat match goal with
         | |- context [has_ext ?p ?l] => destruct (has_ext p l)
         end;
    by rewrite ?andb_false_r, ?orb_false_r.
Qed.

(** X15: in a script file and in a C family file, a line in which the symbol
    is followed by an opening parenthesis is accepted, wherever the symbol
    stands and whatever the word search finds. *)
Theorem call_syntax_accepted (symbol_name : string) (re : Pattern)
    (file line : string) :
  has_ext file (SOURCE_CODE_TYPES_TO_EXT E "Rust") = false →
  has_ext file (SOURCE_CODE_TYPES_TO_EXT E "Javascript") = true
  ∨ has_ext file (SOURCE_CODE_TYPES_TO_EXT E "C/C++"
                  ++ SOURCE_CODE_TYPES_TO_EXT E "Objective-C/C++") = true →
  PyStr.contains line (symbol_name +:+ "(") = true →
  accepts_line E symbol_name re file line = true.
Proof.
  intros Hr Hfam Hcall. unfold accepts_line, looks_like_definition.
  rewrite (contains_head _ _ _ Hcall), Hr, Hcall. simpl.
  destruct (has_ext file (SOURCE_CODE_TYPES_TO_EXT E "Javascript")); [done|].
  destruct Hfam as [? | ->]; done.
Qed.

(** X16: in a Python file a line that contains [def NAME(] is accepted. *)
Theorem def_syntax_accepted (symbol_name : string) (re : Pattern)
    (file line : string) :
  has_ext file (SOURCE_CODE_TYPES_TO_EXT E "Rust") = false →
  has_ext file (SOURCE_CODE_TYPES_TO_EXT E "Javascript") = false →
  has_ext file (SOURCE_CODE_TYPES_TO_EXT E "C/C++"
                ++ SOURCE_CODE_TYPES_TO_EXT E "Objective-C/C++") = false →
  has_ext file (SOURCE_CODE_TYPES_TO_EXT E "Python") = true →
  PyStr.contains line ("def " +:+ symbol_name +:+ "(") = true →
  accepts_line E symbol_name re file line = true.
Proof.
  intros Hr Hj Hc Hp Hdef. unfold accepts_line, looks_like_definition.
  rewrite (contains_part _ _ _ _ Hdef), Hr, Hj, Hc, Hp, Hdef. done.
Qed.

(** X17: a condition on positions compares the whole word position of the
    symbol with the first occurrence of the token: it holds exactly when the
    token occurs in the line and every occurrence of it starts after that
    position; without a whole word match it never holds. *)
Theorem word_before_every_occurrence (p : nat) (line needle : string) :
  (word_before (Some p) line needle = true ↔
   PyStr.contains line needle = true
   ∧ ∀ pre post, line = pre +:+ needle +:+ post → (p < String.length pre)%nat)
  ∧ word_before None line needle = false.
Proof.
  unfold word_before, PyStr.contains. split; [|apply andb_false_r].
  destruct (PyStr.find needle line) as [i|] eqn:Hfind.
  - rewrite bool_decide_true by eauto. simpl. rewrite bool_decide_eq_true.
    split.
    + intros Hlt. split; [done|]. intros pre post Hline.
      pose proof (PyStrFacts.find_first _ _ _ Hfind pre post Hline). lia.
    + intros [_ Hall].
      destruct (PyStrFacts.find_occurrence _ _ _ Hfind)
        as (pre & post & Hline & <-).
      by apply (Hall pre post).
  - rewrite bool_decide_false by (by intros [? ?]). simpl.
    split; [done | by intros [? _]].
Qed.

End RuleFacts.

(** ** Further facts about the source extraction *)

Section FetchFacts.
Context (E : Env).

(** X18: the results are built in order and the first raw file that cannot
    be fetched ends the run: its exception is raised, the functions already
    built are lost, and the files of the later scopes are not asked for. *)
Theorem first_failing_fetch_aborts (c : string)
    (done_ rest : list FunctionDict) (d : FunctionDict) (e : exn) :
  (∀ d', d' ∈ done_ →
         ∃ stream, get_file E (PyStr.or_else c "tip") (path d') = Ok stream) →
  get_file E (PyStr.or_else c "tip") (path d) = Raise e →
  definitions_to_results E c (done_ ++ d :: rest)
  = ((fun d' => GetFile (PyStr.or_else c "tip") (path d')) <$> (done_ ++ [d]),
     Raise e).
Proof.
  unfold definitions_to_results. intros Hdone Hfail.
  induction done_ as [|d0 ds IH]; simpl.
  - unfold definition_to_result, extract_source, read_file, call. simpl.
    by rewrite Hfail.
  - destruct (Hdone d0) as [stream Hfile]; [by left|].
    rewrite (definition_to_result_ok E c d0 stream Hfile). simpl.
    rewrite IH; [done|]. intros d' Hd'. apply Hdone. by right.
Qed.

End FetchFacts.

(** ** The further facts on concrete inputs *)

Section MoreExamples.
Import Sample.

(** A file view that answers 503. *)
Lemma file_view_error_status_witness :
  http_get error_env (source_url "x.js") = Ok error_response
  ∧ 400 ≤ status_code error_response < 600
  ∧ status_code error_response ≠ 404
  ∧ get_functions error_env "tip" "x.js" None
    = ([HttpGet (source_url "x.js")], Raise (HTTPError 503))
  ∧ get_function_by_line error_env "tip" "x.js" 4
    = ([HttpGet (source_url "x.js")], Raise (HTTPError 503)).
Proof.
  assert (400 ≤ status_code error_response < 600) as Hrange
    by (simpl; lia).
  assert (status_code error_response ≠ 404) as Hne by (simpl; lia).
  split; [reflexivity|]. split; [exact Hrange|]. split; [exact Hne|].
  exact (file_view_error_status error_env "tip" "x.js" None 4 error_response
           eq_refl Hrange Hne).
Defined.

(** A document without the [file] container. *)
Lemma file_view_needs_one_container_witness :
  http_get bare_env (source_url "x.js") = Ok bare_response
  ∧ ¬ (400 ≤ status_code bare_response < 600)
  ∧ length (find_by_id "file" (html bare_response)) ≠ 1%nat
  ∧ get_functions bare_env "tip" "x.js" None
    = ([HttpGet (source_url "x.js")], Raise AssertionError).
Proof.
  assert (¬ (400 ≤ status_code bare_response < 600)) as Hok
    by (simpl; lia).
  assert (length (find_by_id "file" (html bare_response)) ≠ 1%nat) as Hlen
    by (vm_compute; discriminate).
  split; [reflexivity|]. split; [exact Hok|]. split; [exact Hlen|].
  exact (file_view_needs_one_container bare_env "tip" "x.js" None bare_response
           eq_refl Hok Hlen).
Defined.

(** The failure of the listing above, seen from the resolution of a line. *)
Lemma listing_failure_propagates_witness :
  get_functions error_env "tip" "x.js" None
    = ([HttpGet (source_url "x.js")], Raise (HTTPError 503))
  ∧ find_function_for_line error_env "" "x.js" 4
    = ([HttpGet (source_url "x.js")], Raise (HTTPError 503))
  ∧ get_function_by_line error_env "" "x.js" 4
    = ([HttpGet (source_url "x.js")], Raise (HTTPError 503)).
Proof.
  assert (get_functions error_env "tip" "x.js" None
          = ([HttpGet (source_url "x.js")], Raise (HTTPError 503))) as Hget
    by (vm_compute; reflexivity).
  split; [exact Hget|].
  exact (listing_failure_propagates error_env "tip" "" "x.js" 4 _ _ Hget).
Defined.

(** The second of two scope markers has no children. *)
Lemma unresolvable_marker_fails_listing_witness :
  http_get childless_env (source_url "x.js") = Ok childless_response
  ∧ ¬ (400 ≤ status_code childless_response < 600)
  ∧ find_by_id "file" (html childless_response) = [childless_file]
  ∧ childless_marker ∈ sym_wraps_of childless_file None
  ∧ function_dict childless_env "x.js" childless_marker = Raise StopIteration
  ∧ ∃ e, get_functions childless_env "tip" "x.js" None
         = ([HttpGet (source_url "x.js")], Raise e).
Proof.
  assert (¬ (400 ≤ status_code childless_response < 600)) as Hok
    by (simpl; lia).
  assert (find_by_id "file" (html childless_response) = [childless_file])
    as Hfile by (vm_compute; reflexivity).
  assert (childless_marker ∈ sym_wraps_of childless_file None) as Hsw.
  { replace (sym_wraps_of childless_file None)
      with [scope_marker "#a" [line_marker "1"]; childless_marker]
      by (vm_compute; reflexivity).
    right. left. }
  assert (function_dict childless_env "x.js" childless_marker
          = Raise StopIteration) as Hdict by (vm_compute; reflexivity).
  split; [reflexivity|]. split; [exact Hok|]. split; [exact Hfile|].
  split; [exact Hsw|]. split; [exact Hdict|].
  exact (unresolvable_marker_fails_listing childless_env "tip" "x.js" None
           childless_response childless_file childless_marker StopIteration
           eq_refl Hok Hfile Hsw Hdict).
Defined.

(** The scopes of [a.js], all of them and those of the symbol [B]. *)
Lemma name_filter_sublist_witness :
  get_functions nested_env "tip" "a.js" None = (a_js, Ok [scope_A; scope_B])
  ∧ ∃ fs', get_functions nested_env "tip" "a.js" (Some "B") = (a_js, Ok fs')
           ∧ fs' `sublist_of` [scope_A; scope_B].
Proof.
  assert (get_functions nested_env "tip" "a.js" None
          = (a_js, Ok [scope_A; scope_B])) as Hget by (vm_compute; reflexivity).
  split; [exact Hget|].
  exact (name_filter_sublist nested_env "tip" "a.js" "B" _ _ Hget).
Defined.

(** An outer scope that begins with the scope [first]. *)
Lemma nested_marker_shares_boundaries_witness :
  function_dict index_env "n.js" outer_marker = Ok outer_scope
  ∧ function_dict index_env "n.js" inner_first = Ok first_scope
  ∧ children outer_marker = inner_first :: [line_marker "6"; inner_last]
  ∧ start outer_scope = start first_scope.
Proof.
  assert (function_dict index_env "n.js" outer_marker = Ok outer_scope) as Hf
    by (vm_compute; reflexivity).
  assert (function_dict index_env "n.js" inner_first = Ok first_scope) as Hg
    by (vm_compute; reflexivity).
  split; [exact Hf|]. split; [exact Hg|]. split; [reflexivity|].
  exact (proj1 (nested_marker_shares_boundaries index_env "n.js" outer_marker
                  inner_first [line_marker "6"; inner_last] outer_scope
                  first_scope Hf Hg) eq_refl).
Defined.


(** Line 200 of [a.js] lies in no scope. *)
Lemma by_line_outside_any_scope_witness :
  get_functions nested_env (PyStr.or_else "" "tip") "a.js" None
    = (a_js, Ok [scope_A; scope_B])
  ∧ (∀ f, f ∈ [scope_A; scope_B] → ¬ contains_line f 200)
  ∧ get_function_by_line nested_env "" "a.js" 200 = (a_js, Ok []).
Proof.
  assert (get_functions nested_env (PyStr.or_else "" "tip") "a.js" None
          = (a_js, Ok [scope_A; scope_B])) as Hget by (vm_compute; reflexivity).
  assert (∀ f, f ∈ [scope_A; scope_B] → ¬ contains_line f 200) as Hnone.
  { apply Forall_forall. repeat constructor;
      unfold contains_line; simpl; lia. }
  split; [exact Hget|]. split; [exact Hnone|].
  exact (by_line_outside_any_scope nested_env "" "a.js" 200 _ _ Hget Hnone).
Defined.

(** A page of the index without the results script. *)
Lemma search_malformed_page_witness :
  http_get bare_env (search_url "foo") = Ok bare_response
  ∧ ¬ (400 ≤ status_code bare_response < 600)
  ∧ PyStr.contains (text bare_response) "var results = " = false
  ∧ search bare_env "tip" "foo" = ([HttpGet (search_url "foo")], Raise IndexError)
  ∧ get_function_by_name bare_env "" "x.js" "foo"
    = ([HttpGet (search_url "foo")], Raise IndexError).
Proof.
  assert (¬ (400 ≤ status_code bare_response < 600)) as Hok by (simpl; lia).
  assert (PyStr.contains (text bare_response) "var results = " = false)
    as Hmark by (vm_compute; reflexivity).
  split; [reflexivity|]. split; [exact Hok|]. split; [exact Hmark|].
  split.
  - exact (proj1 (search_malformed_page bare_env "tip" "x.js" "foo"
                    bare_response eq_refl Hok Hmark)).
  - exact (proj2 (search_malformed_page bare_env "" "x.js" "foo"
                    bare_response eq_refl Hok Hmark)).
Defined.


(** The symbol [zzz] has no bucket in the response. *)
Lemma search_without_candidates_witness :
  http_get mixed_env (search_url "zzz") = Ok index_response
  ∧ ¬ (400 ≤ status_code index_response < 600)
  ∧ results_text (text index_response) = Ok "{}"
  ∧ json_loads mixed_env "{}" = Ok mixed_index
  ∧ re_compile mixed_env ("\b" +:+ "zzz" +:+ "\b")
    = Ok (word_search_from "zzz" false)
  ∧ candidates "zzz" mixed_index = []
  ∧ search mixed_env "tip" "zzz" = ([HttpGet (search_url "zzz")], Ok [])
  ∧ get_function_by_name mixed_env "" "x.js" "zzz"
    = ([HttpGet (search_url "zzz")], Ok []).
Proof.
  assert (¬ (400 ≤ status_code index_response < 600)) as Hok by (simpl; lia).
  assert (results_text (text index_response) = Ok "{}") as Htext
    by (vm_compute; reflexivity).
  assert (candidates "zzz" mixed_index = []) as Hcand
    by (vm_compute; reflexivity).
  split; [reflexivity|]. split; [exact Hok|]. split; [exact Htext|].
  split; [reflexivity|]. split; [reflexivity|]. split; [exact Hcand|].
  split.
  - exact (proj1 (search_without_candidates mixed_env "tip" "x.js" "zzz" "{}"
                    index_response mixed_index (word_search_from "zzz" false)
                    eq_refl Hok Htext eq_refl eq_refl Hcand)).
  - exact (proj2 (search_without_candidates mixed_env "" "x.js" "zzz" "{}"
                    index_response mixed_index (word_search_from "zzz" false)
                    eq_refl Hok Htext eq_refl eq_refl Hcand)).
Defined.

(** A text file: the symbol in the line is all that counts. *)
Lemma unknown_extension_accepts_witness :
  has_ext "notes.txt" (SOURCE_CODE_TYPES_TO_EXT index_env "Rust") = false
  ∧ has_ext "notes.txt" (SOURCE_CODE_TYPES_TO_EXT index_env "Javascript") = false
  ∧ has_ext "notes.txt"
      (SOURCE_CODE_TYPES_TO_EXT index_env "C/C++"
       ++ SOURCE_CODE_TYPES_TO_EXT index_env "Objective-C/C++") = false
  ∧ has_ext "notes.txt" (SOURCE_CODE_TYPES_TO_EXT index_env "Python") = false
  ∧ accepts_line index_env "foo" (word_search_from "foo" false) "notes.txt"
      "see foo" = PyStr.contains "see foo" "foo".
Proof.
  repeat (split; [vm_compute; reflexivity|]).
  apply unknown_extension_accepts; vm_compute; reflexivity.
Defined.

(** In [def foobar(x):] the symbol [foo] is no whole word. *)
Lemma no_word_match_literal_only_witness :
  has_ext "x.py" (SOURCE_CODE_TYPES_TO_EXT index_env "Rust") = false
  ∧ word_search_from "foo" false "def foobar(x):" = None
  ∧ accepts_line index_env "foo" (word_search_from "foo" false) "x.py"
      "def foobar(x):" = false.
Proof.
  split; [vm_compute; reflexivity|]. split; [vm_compute; reflexivity|].
  rewrite (no_word_match_literal_only index_env "foo"
             (word_search_from "foo" false) "x.py" "def foobar(x):");
    vm_compute; reflexivity.
Defined.

(** A call of [foo] in a C file. *)
Lemma call_syntax_accepted_witness :
  has_ext "a.c" (SOURCE_CODE_TYPES_TO_EXT index_env "Rust") = false
  ∧ has_ext "a.c"
      (SOURCE_CODE_TYPES_TO_EXT index_env "C/C++"
       ++ SOURCE_CODE_TYPES_TO_EXT index_env "Objective-C/C++") = true
  ∧ PyStr.contains "  y = foo(3);" ("foo" +:+ "(") = true
  ∧ accepts_line index_env "foo" (word_search_from "foo" false) "a.c"
      "  y = foo(3);" = true.
Proof.
  split; [vm_compute; reflexivity|]. split; [vm_compute; reflexivity|].
  split; [vm_compute; reflexivity|].
  apply call_syntax_accepted;
    [vm_compute; reflexivity | right; vm_compute; reflexivity
    | vm_compute; reflexivity].
Defined.

(** A definition of [foo] in a Python file. *)
Lemma def_syntax_accepted_witness :
  has_ext "b.py" (SOURCE_CODE_TYPES_TO_EXT index_env "Rust") = false
  ∧ has_ext "b.py" (SOURCE_CODE_TYPES_TO_EXT index_env "Javascript") = false
  ∧ has_ext "b.py"
      (SOURCE_CODE_TYPES_TO_EXT index_env "C/C++"
       ++ SOURCE_CODE_TYPES_TO_EXT index_env "Objective-C/C++") = false
  ∧ has_ext "b.py" (SOURCE_CODE_TYPES_TO_EXT index_env "Python") = true
  ∧ PyStr.contains "def foo(x):" ("def " +:+ "foo" +:+ "(") = true
  ∧ accepts_line index_env "foo" (word_search_from "foo" false) "b.py"
      "def foo(x):" = true.
Proof.
  repeat (split; [vm_compute; reflexivity|]).
  apply def_syntax_accepted; vm_compute; reflexivity.
Defined.

(** The file of the second of three scopes is missing. *)
Lemma first_failing_fetch_aborts_witness :
  (∀ d', d' ∈ [scope_10_20] →
         ∃ stream, get_file files_env (PyStr.or_else "" "tip") (path d')
                   = Ok stream)
  ∧ get_file files_env (PyStr.or_else "" "tip") (path missing_scope)
    = Raise (HTTPError 404)
  ∧ definitions_to_results files_env ""
      ([scope_10_20] ++ missing_scope :: [scope_2_2])
    = ([GetFile "tip" "long.js"; GetFile "tip" "missing.js"],
       Raise (HTTPError 404)).
Proof.
  assert (∀ d', d' ∈ [scope_10_20] →
            ∃ stream, get_file files_env (PyStr.or_else "" "tip") (path d')
                      = Ok stream) as Hdone.
  { intros d' Hd'. apply list_elem_of_singleton in Hd' as ->.
    exists long_js. reflexivity. }
  split; [exact Hdone|]. split; [reflexivity|].
  exact (first_failing_fetch_aborts files_env "" [scope_10_20] [scope_2_2]
           missing_scope (HTTPError 404) Hdone eq_refl).
Defined.

(** The marker of line 6 between two nested scopes. *)
Lemma plain_marker_boundaries_witness :
  attrib (line_marker "6") !! "data-nesting-sym" = None
  ∧ attrib (line_marker "6") !! "id" = Some ("line-" +:+ "6")
  ∧ py_int index_env "6" = Some 6
  ∧ get_line_number index_env (line_marker "6" :: [inner_last]) start_pos = Ok 6
  ∧ get_line_number index_env ([inner_first] ++ [line_marker "6"]) end_pos
    = Ok 6.
Proof.
  split; [vm_compute; reflexivity|]. split; [vm_compute; reflexivity|].
  split; [reflexivity|].
  apply (plain_marker_boundaries index_env (line_marker "6") [inner_last]
           [inner_first] "6" 6); vm_compute; reflexivity.
Defined.

End MoreExamples.
